(** * Student record store (app.py): a shallow embedding and its contract

    The program keeps one SQLite table, [students], in the file [data.db] and
    reaches it through six Python functions, each of which opens a connection,
    executes one parameterised SQL statement, commits and closes.

    The embedding has four layers, in the order of the file:
    - [Datetime]: [datetime.now().strftime("%Y-%m-%d %H:%M:%S")];
    - [SQLite]: the content of the database file, the exceptions of the
      [sqlite3] module, and the meaning of the six statements the program
      executes (rowid selection of an AUTOINCREMENT table included);
    - connections: [execute], [commit] and [fetchone] on an open
      connection, whose transaction is ahead of the file until the commit;
    - the functions of app.py themselves, each from [sqlite3.connect] to
      [conn.close()], as functions from the content of the file to a value
      or an exception and the content of the file afterwards.

    Then come the invariant of the table, its preservation along any
    sequence of calls, and the contract of the store. *)

From Stdlib Require Import ZArith List String Ascii Bool Lia Sorted.
Import ListNotations.

Local Open Scope string_scope.
Local Open Scope list_scope.
Local Open Scope Z_scope.

(* ================================================================== *)
(** ** [datetime] and [strftime] *)
(* ================================================================== *)

Module Datetime.

(** A [datetime.datetime] value, as returned by [datetime.now()]. *)
Record datetime : Type := mk_datetime {
  year : Z;
  month : Z;
  day : Z;
  hour : Z;
  minute : Z;
  second : Z;
  microsecond : Z
}.

(** The readings of the clock.  The class admits years 1 to 9999; [%Y]
    is four digits wide from year 1000 on, and what it prints below that
    is left to the C library, so the statements about the printed form are
    made for four-digit years. *)
Definition clock_reading (d : datetime) : Prop :=
  1000 <= year d <= 9999 /\
  1 <= month d <= 12 /\
  1 <= day d <= 31 /\
  0 <= hour d <= 23 /\
  0 <= minute d <= 59 /\
  0 <= second d <= 59 /\
  0 <= microsecond d <= 999999.

Definition digit (n : Z) : ascii :=
  match n mod 10 with
  | 0 => "0" | 1 => "1" | 2 => "2" | 3 => "3" | 4 => "4"
  | 5 => "5" | 6 => "6" | 7 => "7" | 8 => "8" | _ => "9"
  end%char.

Definition zero_pad2 (n : Z) : string :=
  String (digit (n / 10)) (String (digit n) "").

Definition zero_pad4 (n : Z) : string :=
  String (digit (n / 1000)) (String (digit (n / 100))
    (String (digit (n / 10)) (String (digit n) ""))).

(** One conversion directive of the format string. *)
Definition directive (c : ascii) (d : datetime) : string :=
  match c with
  | "Y" => zero_pad4 (year d)
  | "m" => zero_pad2 (month d)
  | "d" => zero_pad2 (day d)
  | "H" => zero_pad2 (hour d)
  | "M" => zero_pad2 (minute d)
  | "S" => zero_pad2 (second d)
  | _ => String "%" (String c "")
  end%char.

(** [d.strftime(fmt)]: directives are replaced, other characters copied. *)
Fixpoint strftime (fmt : string) (d : datetime) : string :=
  match fmt with
  | EmptyString => EmptyString
  | String c rest =>
      match c, rest with
      | "%"%char, String k rest' => (directive k d ++ strftime rest' d)%string
      | _, _ => String c (strftime rest d)
      end
  end.

(** Reading the text back. *)
Definition digit_value (c : ascii) : option Z :=
  let n := Z.of_nat (nat_of_ascii c) in
  if (48 <=? n) && (n <=? 57) then Some (n - 48) else None.

Definition is_digit (c : ascii) : bool :=
  match digit_value c with Some _ => true | None => false end.

(** The shape [YYYY-MM-DD HH:MM:SS]: nineteen characters, digits
    everywhere but at the five separators. *)
Definition timestamp_shape (s : string) : bool :=
  match list_ascii_of_string s with
  | [y1; y2; y3; y4; s1; m1; m2; s2; d1; d2; s3;
     h1; h2; s4; n1; n2; s5; c1; c2] =>
      forallb is_digit [y1; y2; y3; y4; m1; m2; d1; d2; h1; h2; n1; n2; c1; c2]
      && Ascii.eqb s1 "-" && Ascii.eqb s2 "-" && Ascii.eqb s3 " "
      && Ascii.eqb s4 ":" && Ascii.eqb s5 ":"
  | _ => false
  end.

Definition number2 (a b : ascii) : option Z :=
  match digit_value a, digit_value b with
  | Some x, Some y => Some (10 * x + y)
  | _, _ => None
  end.

Definition number4 (a b c e : ascii) : option Z :=
  match number2 a b, number2 c e with
  | Some x, Some y => Some (100 * x + y)
  | _, _ => None
  end.

(** The instant a text of that shape denotes, to the second. *)
Definition strptime (s : string) : option datetime :=
  match list_ascii_of_string s with
  | [y1; y2; y3; y4; _; m1; m2; _; d1; d2; _;
     h1; h2; _; n1; n2; _; c1; c2] =>
      match number4 y1 y2 y3 y4, number2 m1 m2, number2 d1 d2,
            number2 h1 h2, number2 n1 n2, number2 c1 c2 with
      | Some y, Some m, Some d, Some h, Some n, Some c =>
          Some (mk_datetime y m d h n c 0)
      | _, _, _, _, _, _ => None
      end
  | _ => None
  end.

(** [d.replace(microsecond=0)] *)
Definition to_the_second (d : datetime) : datetime :=
  mk_datetime (year d) (month d) (day d) (hour d) (minute d) (second d) 0.

End Datetime.

(* ================================================================== *)
(** ** The database file and the [sqlite3] module *)
(* ================================================================== *)

(** A row of [students], columns in the order of the CREATE TABLE statement
    (the order in which both SELECT statements of the program return them). *)
Record Student : Type := mk_student {
  id : Z;
  name : string;
  email : string;
  phone : string;
  course : string;
  enrollment_date : string
}.

Module SQLite.

(** The largest and the smallest 64-bit signed integer: the range of an
    INTEGER value, and so of a rowid. *)
Definition MAX_ROWID : Z := 9223372036854775807.
Definition MIN_ROWID : Z := -9223372036854775808.

(** The table [students]: its rows in storage order (the order of the
    rowid, which [id INTEGER PRIMARY KEY] aliases), and the counter that
    AUTOINCREMENT keeps for the table in [sqlite_sequence] (0 while no row
    was ever inserted). *)
Record Table : Type := mk_table {
  rows : list Student;
  seq : Z
}.

(** The content of [data.db]: the table, once it has been created. *)
Record Database : Type := mk_database {
  students : option Table
}.

Definition empty_table : Table := mk_table [] 0.
Definition no_table : Database := mk_database None.
Definition with_table (t : Table) : Database := mk_database (Some t).

(** The exceptions the statements of the program can raise. *)
Inductive Exception : Type :=
| OperationalError (msg : string)
| OverflowError (msg : string).

Definition no_such_table : Exception :=
  OperationalError "no such table: students".
Definition database_full : Exception :=
  OperationalError "database or disk is full".
Definition int_too_large : Exception :=
  OverflowError "Python int too large to convert to SQLite INTEGER".

(** The statements of the program, with the values bound to their [?]. *)
Inductive Statement : Type :=
| CreateTableIfNotExists
| InsertInto (name email phone course enrollment_date : string)
| SelectAll
| SelectWhereId (student_id : Z)
| UpdateWhereId (name email phone course : string) (student_id : Z)
| DeleteWhereId (student_id : Z).

(** A Python [int] is bound as a 64-bit INTEGER, or not at all. *)
Definition fits_integer (v : Z) : bool :=
  (MIN_ROWID <=? v) && (v <=? MAX_ROWID).

Fixpoint last_row (l : list Student) : option Student :=
  match l with
  | [] => None
  | [r] => Some r
  | _ :: l' => last_row l'
  end.

(** The rowid of a new row of an AUTOINCREMENT table: one more than the
    largest rowid in the table (1 in an empty table), raised to one more
    than the counter; no row can be added once the largest rowid or the
    counter has reached [MAX_ROWID]. *)
Definition new_rowid (t : Table) : option Z :=
  let '(v, exhausted) :=
    match last_row (rows t) with
    | None => (1, false)
    | Some r =>
        if MAX_ROWID <=? id r then (id r, true) else (id r + 1, false)
    end in
  if (seq t =? MAX_ROWID) || exhausted then None
  else Some (Z.max v (seq t + 1)).

Definition has_id (student_id : Z) (r : Student) : bool :=
  id r =? student_id.

Definition set_fields (name email phone course : string) (r : Student)
  : Student :=
  mk_student (id r) name email phone course (enrollment_date r).

(** The effect of a statement on an existing table, and the rows it
    returns. *)
Definition run_statement (s : Statement) (t : Table)
  : Exception + (list Student * Table) :=
  match s with
  | CreateTableIfNotExists => inr ([], t)
  | InsertInto n e p c d =>
      match new_rowid t with
      | None => inl database_full
      | Some v =>
          inr ([], mk_table (rows t ++ [mk_student v n e p c d]) v)
      end
  | SelectAll => inr (rows t, t)
  | SelectWhereId sid =>
      if fits_integer sid then inr (filter (has_id sid) (rows t), t)
      else inl int_too_large
  | UpdateWhereId n e p c sid =>
      if fits_integer sid then
        inr ([], mk_table
                   (map (fun r => if has_id sid r then set_fields n e p c r
                                  else r) (rows t))
                   (seq t))
      else inl int_too_large
  | DeleteWhereId sid =>
      if fits_integer sid then
        inr ([], mk_table
                   (filter (fun r => negb (has_id sid r)) (rows t))
                   (seq t))
      else inl int_too_large
  end.

End SQLite.

Import Datetime SQLite.

Arguments strftime : simpl never.

(* ================================================================== *)
(** ** Connections, cursors and transactions *)
(* ================================================================== *)

(** An open connection to [data.db]: the content of the file, and the
    content as the connection sees it, which is ahead of the file by the
    changes of its open transaction. *)
Record Connection : Type := mk_connection {
  on_disk : Database;
  in_transaction : Database
}.

(** The statements of a function body run on its connection; each returns
    a value or raises, and leaves the connection in some state. *)
Definition Sql (A : Type) : Type := Connection -> (Exception + A) * Connection.

Definition sql_ret {A : Type} (a : A) : Sql A := fun conn => (inr a, conn).

Definition sql_bind {A B : Type} (m : Sql A) (k : A -> Sql B) : Sql B :=
  fun conn =>
    match m conn with
    | (inr a, conn') => k a conn'
    | (inl e, conn') => (inl e, conn')
    end.

Declare Scope sql_scope.
Delimit Scope sql_scope with sql.
Notation "x <- m ;; k" := (sql_bind m (fun x => k))
  (at level 100, m at next level, right associativity) : sql_scope.
Notation "m ;;; k" := (sql_bind m (fun _ => k))
  (at level 100, right associativity) : sql_scope.

(** [cursor.execute(sql, params)]: the rows the cursor then holds.  Every
    statement but CREATE TABLE IF NOT EXISTS needs the table.  INSERT,
    UPDATE and DELETE change what the connection sees and reach the file at
    the commit; CREATE TABLE runs outside a transaction and is written at
    once.  A statement that raises changes nothing. *)
Definition execute (s : Statement) : Sql (list Student) :=
  fun conn =>
    match students (in_transaction conn), s with
    | None, CreateTableIfNotExists =>
        (inr [], mk_connection (with_table empty_table)
                               (with_table empty_table))
    | None, _ => (inl no_such_table, conn)
    | Some t, _ =>
        match run_statement s t with
        | inl e => (inl e, conn)
        | inr (rs, t') =>
            (inr rs, mk_connection (on_disk conn) (with_table t'))
        end
    end.

(** [conn.commit()] *)
Definition commit : Sql unit :=
  fun conn =>
    (inr tt, mk_connection (in_transaction conn) (in_transaction conn)).

(** [cursor.fetchone()] *)
Definition fetchone (cursor : list Student) : option Student :=
  match cursor with
  | [] => None
  | r :: _ => Some r
  end.

(* ================================================================== *)
(** ** The monad of the program: the database file and exceptions *)
(* ================================================================== *)

(** What a call leaves behind: a value or an exception, and the content of
    the file. *)
Inductive Outcome (A : Type) : Type :=
| Returned (a : A) (db : Database)
| Raised (e : Exception) (db : Database).

Arguments Returned {A} a db.
Arguments Raised {A} e db.

Definition M (A : Type) : Type := Database -> Outcome A.

Definition ret {A : Type} (a : A) : M A := fun db => Returned a db.

Definition bind {A B : Type} (m : M A) (k : A -> M B) : M B :=
  fun db =>
    match m db with
    | Returned a db' => k a db'
    | Raised e db' => Raised e db'
    end.

Declare Scope store_scope.
Delimit Scope store_scope with store.
Notation "x <- m ;; k" := (bind m (fun x => k))
  (at level 100, m at next level, right associativity) : store_scope.
Notation "m ;;; k" := (bind m (fun _ => k))
  (at level 100, right associativity) : store_scope.

(** From [conn = sqlite3.connect(DATABASE_NAME)] to [conn.close()]: the
    body runs on a new connection to the file.  Closing the connection,
    like dropping it when an exception leaves the function, discards what
    was not committed. *)
Definition with_connection {A : Type} (body : Sql A) : M A :=
  fun file =>
    match body (mk_connection file file) with
    | (inr a, conn) => Returned a (on_disk conn)
    | (inl e, conn) => Raised e (on_disk conn)
    end.

(** The content of the file after a call, whether it returned or raised. *)
Definition db_after {A : Type} (m : M A) (db : Database) : Database :=
  match m db with
  | Returned _ db' => db'
  | Raised _ db' => db'
  end.

(* ================================================================== *)
(** ** app.py *)
(* ================================================================== *)

Definition timestamp_format : string := "%Y-%m-%d %H:%M:%S".

Definition init_database : M unit :=
  with_connection (
    execute CreateTableIfNotExists ;;;
    commit ;;;
    sql_ret tt)%sql.

(** [now] is the value of [datetime.now()] during the call. *)
Definition insert_student (now : datetime) (name email phone course : string)
  : M unit :=
  with_connection (
    let enrollment_date := strftime timestamp_format now in
    execute (InsertInto name email phone course enrollment_date) ;;;
    commit ;;;
    sql_ret tt)%sql.

Definition view_all_students : M (list Student) :=
  with_connection (
    df <- execute SelectAll ;;
    sql_ret df)%sql.

Definition get_student_by_id (student_id : Z) : M (option Student) :=
  with_connection (
    cursor <- execute (SelectWhereId student_id) ;;
    let student := fetchone cursor in
    sql_ret student)%sql.

Definition update_student (student_id : Z) (name email phone course : string)
  : M unit :=
  with_connection (
    execute (UpdateWhereId name email phone course student_id) ;;;
    commit ;;;
    sql_ret tt)%sql.

Definition delete_student (student_id : Z) : M unit :=
  with_connection (
    execute (DeleteWhereId student_id) ;;;
    commit ;;;
    sql_ret tt)%sql.

Local Open Scope store_scope.

(* ================================================================== *)
(** ** Store states, requests and histories *)
(* ================================================================== *)

(** What [view_all_students] shows of a database, and the ids in it. *)
Definition listing (db : Database) : list Student :=
  match students db with
  | Some t => rows t
  | None => []
  end.

Definition ids (l : list Student) : list Z := map id l.

Definition counter (db : Database) : Z :=
  match students db with
  | Some t => seq t
  | None => 0
  end.

(** The invariant of the table: the primary key orders the rows strictly;
    every id was handed out by the counter, so it is positive and not
    above it; the counter is a non-negative rowid. *)
Definition wf_table (t : Table) : Prop :=
  StronglySorted Z.lt (ids (rows t)) /\
  Forall (fun i => 1 <= i <= seq t) (ids (rows t)) /\
  0 <= seq t <= MAX_ROWID.

Definition wf_database (db : Database) : Prop :=
  match students db with
  | Some t => wf_table t
  | None => True
  end.

(** The calls a client of the store can make. *)
Inductive Request : Type :=
| Initialize
| Create (now : datetime) (name email phone course : string)
| ListAll
| GetById (student_id : Z)
| Update (student_id : Z) (name email phone course : string)
| Delete (student_id : Z).

Definition perform (r : Request) : M unit :=
  match r with
  | Initialize => init_database
  | Create now n e p c => insert_student now n e p c
  | ListAll => view_all_students ;;; ret tt
  | GetById sid => get_student_by_id sid ;;; ret tt
  | Update sid n e p c => update_student sid n e p c
  | Delete sid => delete_student sid
  end.

(** The database after a sequence of calls; a call that raises is over and
    the next one finds the file as it was. *)
Fixpoint run (rs : list Request) (db : Database) : Database :=
  match rs with
  | [] => db
  | r :: rs' => run rs' (db_after (perform r) db)
  end.

Definition mem (i : Z) (l : list Z) : bool := existsb (Z.eqb i) l.

(** The ids a call brought into the table. *)
Definition fresh_ids (before after : Database) : list Z :=
  filter (fun i => negb (mem i (ids (listing before)))) (ids (listing after)).

(** The ids that successive calls brought into the table, in order. *)
Fixpoint assigned (rs : list Request) (db : Database) : list Z :=
  match rs with
  | [] => []
  | r :: rs' =>
      let db' := db_after (perform r) db in
      fresh_ids db db' ++ assigned rs' db'
  end.

(* ================================================================== *)
(** ** The script and its pages *)
(* ================================================================== *)

(** The script is run from its first line on every interaction: it calls
    [init_database()] and then renders the page that the sidebar selects.
    Of the pages, what follows embeds what decides the calls to the store
    and the values shown; headers, captions and layout are left out. *)

(** The options of the course select boxes, the same list on both forms. *)
Definition course_options : list string :=
  ["Python Programming"; "Web Development"; "Data Science";
   "Machine Learning"; "Database Design"; "Mobile App Development"].

(** The truth value of a [str]: it is not empty. *)
Definition truthy (s : string) : bool :=
  match s with
  | EmptyString => false
  | String _ _ => true
  end.

(** What a page puts on the screen in answer. *)
Inductive Element : Type :=
| st_success (body : string)
| st_error (body : string)
| st_warning (body : string)
| st_balloons
| st_dataframe (df : list Student)
| st_metric (label : string) (value : nat).


(** The Create page, from the values of the four widgets and of the submit
    button on. *)
Definition create_page
  (now : datetime) (name email phone course : string) (submit_button : bool)
  : M (list Element) :=
  if submit_button then
    if truthy name && truthy email && truthy phone && truthy course then
      insert_student now name email phone course ;;;
      ret [st_success "✅ Student added successfully!"; st_balloons]
    else
      ret [st_error "❌ Please fill in all fields."]
  else ret [].

(** [df['course'].nunique()]: how many different values the column has. *)
Definition nunique (column : list string) : nat :=
  List.length (nodup string_dec column).

(** [df.empty] *)
Definition df_empty (df : list Student) : bool :=
  match df with
  | [] => true
  | _ :: _ => false
  end.

(** The View page: the records and the three metrics, or a warning. *)
Definition view_page : M (list Element) :=
  df <- view_all_students ;;
  if negb (df_empty df) then
    ret [st_dataframe df;
         st_metric "Total Students" (List.length df);
         st_metric "Unique Courses" (nunique (map course df));
         st_metric "Records in Database" (List.length df)]
  else
    ret [st_warning
           "⚠️ No students found in the database. Add some students first!"].

(** The exceptions of the list and frame operations of the Update and
    Delete pages. *)
Inductive LookupError : Type :=
| IndexError
| ValueError.

(** [df['name'].tolist()]: the options of the select box of both pages. *)
Definition student_names (df : list Student) : list string := map name df.

(** [df[df['name'] == selected_name].iloc[0]]: the first row of the rows
    with that name; [iloc[0]] raises [IndexError] where there is none. *)
Definition selected_student (df : list Student) (selected_name : string)
  : LookupError + Student :=
  match filter (fun r => String.eqb (name r) selected_name) df with
  | [] => inl IndexError
  | r :: _ => inr r
  end.

(** [options.index(x)]: the first position of [x], or [ValueError]. *)
Fixpoint index (options : list string) (x : string) : LookupError + nat :=
  match options with
  | [] => inl ValueError
  | y :: options' =>
      if String.eqb y x then inr O
      else match index options' x with
           | inr k => inr (S k)
           | inl e => inl e
           end
  end.

(** The [index=] argument of the course select box of the Update form:
    the position of the course of the selected record. *)
Definition course_index (selected : Student) : LookupError + nat :=
  index course_options (course selected).

(** A property of the four texts of a record, and of the four texts a call
    writes. *)
Definition record_fields (P : string -> string -> string -> string -> Prop)
  (r : Student) : Prop :=
  P (name r) (email r) (phone r) (course r).

Definition request_fields (P : string -> string -> string -> string -> Prop)
  (q : Request) : Prop :=
  match q with
  | Create _ n e p c => P n e p c
  | Update _ n e p c => P n e p c
  | _ => True
  end.

(** What both forms let through: four texts that are not empty, the course
    one of the options. *)
Definition form_fields (n e p c : string) : Prop :=
  truthy n = true /\ truthy e = true /\ truthy p = true /\
  truthy c = true /\ In c course_options.

(** The order of two [datetime] values, to the second: field by field. *)
Fixpoint lexicographic (l : list (Z * Z)) : comparison :=
  match l with
  | [] => Eq
  | (a, b) :: l' =>
      match a ?= b with
      | Eq => lexicographic l'
      | c => c
      end
  end.

Definition compare_to_the_second (d1 d2 : datetime) : comparison :=
  lexicographic
    [(year d1, year d2); (month d1, month d2); (day d1, day d2);
     (hour d1, hour d2); (minute d1, minute d2); (second d1, second d2)].

(** A change of the rows of the table, where there is a table. *)
Definition on_rows (f : list Student -> list Student) (db : Database)
  : Database :=
  match students db with
  | Some t => with_table (mk_table (f (rows t)) (seq t))
  | None => db
  end.

(** What UPDATE and DELETE do to the rows. *)
Definition overwrite_rows (sid : Z) (n e p c : string) (l : list Student)
  : list Student :=
  map (fun r => if has_id sid r then set_fields n e p c r else r) l.

Definition remove_rows (sid : Z) (l : list Student) : list Student :=
  filter (fun r => negb (has_id sid r)) l.

(* ================================================================== *)
(** ** Sample data *)
(* ================================================================== *)

Definition sample_now : datetime := mk_datetime 2024 3 9 14 5 7 123456.

Definition alice : Student :=
  mk_student 1 "Alice" "a@x.com" "555-0001" "Data Science"
             "2024-03-09 14:05:07".

Definition carol : Student :=
  mk_student 3 "Carol" "c@x.com" "555-0003" "Web Development"
             "2024-03-10 09:30:00".

(** A later record with the name of an earlier one. *)
Definition alice_again : Student :=
  mk_student 5 "Alice" "alice2@x.com" "555-0005" "Database Design"
             "2024-03-11 08:00:00".

(** Two records left of three: the record with id 2 was deleted. *)
Definition sample_table : Table := mk_table [alice; carol] 3.

Ltac solve_wf :=
  unfold wf_database; cbn; unfold wf_table, MAX_ROWID; cbn;
  repeat match goal with
         | |- _ /\ _ => split
         | |- StronglySorted _ _ => constructor
         | |- Forall _ _ => constructor
         | |- _ => lia
         end.

Definition sample_history : list Request :=
  [Delete 3;
   Create sample_now "Dan" "d@x.com" "555-0004" "Database Design";
   Update 1 "Alice B" "a@x.com" "555-0001" "Data Science";
   Delete 4;
   Create sample_now "Eve" "e@x.com" "555-0005" "Python Programming"].

(* ================================================================== *)
(** ** Lemmas on [strftime] *)
(* ================================================================== *)

Section Strftime.

Lemma small_cases (k : Z) (P : Z -> Prop) :
  0 <= k < 10 ->
  P 0 -> P 1 -> P 2 -> P 3 -> P 4 -> P 5 -> P 6 -> P 7 -> P 8 -> P 9 ->
  P k.
Proof.
  intros Hk.
  assert (k = 0 \/ k = 1 \/ k = 2 \/ k = 3 \/ k = 4 \/ k = 5 \/ k = 6 \/
          k = 7 \/ k = 8 \/ k = 9) as Hc by lia.
  intros; repeat (destruct Hc as [-> | Hc]; [assumption |]).
  subst; assumption.
Qed.

Lemma digit_value_digit (n : Z) :
  digit_value (digit n) = Some (n mod 10).
Proof.
  unfold digit.
  apply (small_cases (n mod 10)
           (fun k => digit_value
                       match k with
                       | 0 => "0" | 1 => "1" | 2 => "2" | 3 => "3"
                       | 4 => "4" | 5 => "5" | 6 => "6" | 7 => "7"
                       | 8 => "8" | _ => "9"
                       end%char = Some k));
    try reflexivity.
  apply Z.mod_pos_bound; lia.
Qed.

Lemma is_digit_digit (n : Z) : is_digit (digit n) = true.
Proof. unfold is_digit; now rewrite digit_value_digit. Qed.

Lemma number2_zero_pad2 (n : Z) :
  0 <= n <= 99 ->
  number2 (digit (n / 10)) (digit n) = Some n.
Proof.
  intros Hn; unfold number2; rewrite !digit_value_digit.
  f_equal.
  rewrite (Z.mod_small (n / 10)).
  - pose proof (Z.div_mod n 10); lia.
  - split; [apply Z.div_pos; lia | apply Z.div_lt_upper_bound; lia].
Qed.

Lemma number4_zero_pad4 (n : Z) :
  0 <= n <= 9999 ->
  number4 (digit (n / 1000)) (digit (n / 100)) (digit (n / 10)) (digit n)
  = Some n.
Proof.
  intros Hn; unfold number4, number2; rewrite !digit_value_digit.
  f_equal.
  assert (n / 1000 = n / 100 / 10) as E1
      by (rewrite Z.div_div by lia; reflexivity).
  assert (n / 100 = n / 10 / 10) as E2
      by (rewrite Z.div_div by lia; reflexivity).
  assert (0 <= n / 1000 < 10) as B
      by (split; [apply Z.div_pos; lia | apply Z.div_lt_upper_bound; lia]).
  rewrite (Z.mod_small (n / 1000)) by exact B.
  pose proof (Z.div_mod n 10).
  pose proof (Z.div_mod (n / 10) 10).
  pose proof (Z.div_mod (n / 100) 10).
  lia.
Qed.

Variable now : datetime.

Lemma strftime_timestamp :
  strftime timestamp_format now =
  (zero_pad4 (year now) ++ "-" ++ zero_pad2 (month now) ++ "-" ++
   zero_pad2 (day now) ++ " " ++ zero_pad2 (hour now) ++ ":" ++
   zero_pad2 (minute now) ++ ":" ++ zero_pad2 (second now))%string.
Proof. reflexivity. Qed.

Lemma strftime_shape :
  timestamp_shape (strftime timestamp_format now) = true.
Proof.
  rewrite strftime_timestamp.
  unfold timestamp_shape, zero_pad4, zero_pad2; cbn.
  rewrite !is_digit_digit; reflexivity.
Qed.

Lemma strptime_strftime :
  clock_reading now ->
  strptime (strftime timestamp_format now) = Some (to_the_second now).
Proof.
  intros (Hy & Hm & Hd & Hh & Hn & Hs & _).
  rewrite strftime_timestamp.
  unfold strptime, zero_pad4, zero_pad2; cbn [append list_ascii_of_string].
  rewrite number4_zero_pad4 by lia.
  rewrite !number2_zero_pad2 by lia.
  reflexivity.
Qed.

End Strftime.

(* ================================================================== *)
(** ** Lemmas on rows and rowids *)
(* ================================================================== *)

Section Rows.

Lemma last_row_In (l : list Student) (r : Student) :
  last_row l = Some r -> In r l.
Proof.
  induction l as [| a [| b l'] IH]; cbn [last_row]; intros H.
  - discriminate.
  - injection H as ->; now left.
  - right; apply IH; exact H.
Qed.

Lemma ids_app (l1 l2 : list Student) : ids (l1 ++ l2) = ids l1 ++ ids l2.
Proof. apply map_app. Qed.

Lemma In_ids (l : list Student) (r : Student) : In r l -> In (id r) (ids l).
Proof. apply in_map. Qed.

Lemma sorted_snoc (l : list Z) (v : Z) :
  StronglySorted Z.lt l -> Forall (fun i => i < v) l ->
  StronglySorted Z.lt (l ++ [v]).
Proof.
  induction 1 as [| a l Hs IH Ha]; intros Hv; cbn.
  - repeat constructor.
  - inversion Hv as [| ? ? Hav Hlv]; subst.
    constructor; [now apply IH |].
    apply Forall_app; split; [exact Ha | now repeat constructor].
Qed.

Lemma sorted_NoDup (l : list Z) : StronglySorted Z.lt l -> NoDup l.
Proof.
  induction 1 as [| a l Hs IH Ha]; constructor; [| exact IH].
  intros Hin; rewrite Forall_forall in Ha.
  specialize (Ha a Hin); lia.
Qed.

Lemma sorted_filter (p : Student -> bool) (l : list Student) :
  StronglySorted Z.lt (ids l) -> StronglySorted Z.lt (ids (filter p l)).
Proof.
  induction l as [| a l IH]; cbn; intros H; [exact H |].
  inversion H as [| ? ? Hs Ha]; subst.
  destruct (p a); cbn; [| now apply IH].
  constructor; [now apply IH |].
  rewrite Forall_forall in *; intros x Hx; apply Ha.
  unfold ids in *; rewrite in_map_iff in *.
  destruct Hx as (r & <- & Hr); exists r; split; [reflexivity |].
  now apply filter_In in Hr.
Qed.

Lemma bounded_filter (P : Z -> Prop) (p : Student -> bool) (l : list Student) :
  Forall P (ids l) -> Forall P (ids (filter p l)).
Proof.
  rewrite !Forall_forall; intros H x Hx; apply H.
  unfold ids in *; rewrite in_map_iff in *.
  destruct Hx as (r & <- & Hr); exists r; split; [reflexivity |].
  now apply filter_In in Hr.
Qed.

End Rows.

Section Where.

Variable sid : Z.

Lemma select_absent (l : list Student) :
  ~ In sid (ids l) -> filter (has_id sid) l = [].
Proof.
  induction l as [| a l IH]; cbn; intros H; [reflexivity |].
  unfold has_id at 1.
  destruct (Z.eqb_spec (id a) sid) as [E | E]; [tauto |].
  apply IH; tauto.
Qed.

Lemma remove_absent (l : list Student) :
  ~ In sid (ids l) -> filter (fun r => negb (has_id sid r)) l = l.
Proof.
  induction l as [| a l IH]; cbn; intros H; [reflexivity |].
  unfold has_id at 1.
  destruct (Z.eqb_spec (id a) sid) as [E | E]; [tauto |].
  cbn; f_equal; apply IH; tauto.
Qed.

Lemma select_remove (l : list Student) :
  filter (has_id sid) (filter (fun r => negb (has_id sid r)) l) = [].
Proof.
  induction l as [| a l IH]; cbn; [reflexivity |].
  destruct (has_id sid a) eqn:E; cbn; [exact IH |].
  rewrite E; exact IH.
Qed.

Lemma remove_one (l : list Student) :
  NoDup (ids l) -> In sid (ids l) ->
  S (List.length (filter (fun r => negb (has_id sid r)) l)) = List.length l.
Proof.
  induction l as [| a l IH]; cbn; intros Hnd Hin; [contradiction |].
  inversion Hnd as [| ? ? Ha Hl]; subst.
  unfold has_id at 1.
  destruct (Z.eqb_spec (id a) sid) as [E | E]; cbn.
  - rewrite remove_absent by (rewrite <- E; exact Ha); reflexivity.
  - f_equal; apply IH; [exact Hl | tauto].
Qed.

Lemma remove_at_most_one (l : list Student) :
  NoDup (ids l) ->
  (List.length l <= S (List.length (filter (fun r => negb (has_id sid r)) l)))%nat.
Proof.
  induction l as [| a l IH]; cbn; intros Hnd; [lia |].
  inversion Hnd as [| ? ? Ha Hl]; subst.
  unfold has_id at 1.
  destruct (Z.eqb_spec (id a) sid) as [E | E]; cbn.
  - rewrite remove_absent by (rewrite <- E; exact Ha); lia.
  - specialize (IH Hl); lia.
Qed.

End Where.

Section Overwrite.

Variable sid : Z.
Variables n e p c : string.

Let overwrite (r : Student) : Student :=
  if has_id sid r then set_fields n e p c r else r.

Lemma id_overwrite (r : Student) : id (overwrite r) = id r.
Proof. unfold overwrite; now destruct (has_id sid r). Qed.

Lemma date_overwrite (r : Student) :
  enrollment_date (overwrite r) = enrollment_date r.
Proof. unfold overwrite; now destruct (has_id sid r). Qed.

Lemma ids_overwrite (l : list Student) : ids (map overwrite l) = ids l.
Proof.
  unfold ids; rewrite map_map; apply map_ext; exact id_overwrite.
Qed.

Lemma overwrite_absent (l : list Student) :
  ~ In sid (ids l) -> map overwrite l = l.
Proof.
  induction l as [| a l IH]; cbn; intros H; [reflexivity |].
  rewrite IH by tauto; f_equal.
  unfold overwrite, has_id.
  destruct (Z.eqb_spec (id a) sid) as [E | E]; [tauto | reflexivity].
Qed.

Lemma select_overwrite (l : list Student) :
  filter (has_id sid) (map overwrite l)
  = map (set_fields n e p c) (filter (has_id sid) l).
Proof.
  induction l as [| a l IH]; cbn [filter map]; [reflexivity |].
  assert (has_id sid (overwrite a) = has_id sid a) as ->
      by (unfold has_id; now rewrite id_overwrite).
  destruct (has_id sid a) eqn:E; cbn [filter map]; [| exact IH].
  rewrite IH; f_equal.
  unfold overwrite; now rewrite E.
Qed.

End Overwrite.

Lemma select_present (l : list Student) (r : Student) :
  NoDup (ids l) -> In r l -> filter (has_id (id r)) l = [r].
Proof.
  induction l as [| a l IH]; cbn; intros Hnd Hin; [contradiction |].
  inversion Hnd as [| ? ? Ha Hl]; subst.
  unfold has_id at 1.
  destruct Hin as [-> | Hin].
  - rewrite Z.eqb_refl, select_absent by exact Ha; reflexivity.
  - destruct (Z.eqb_spec (id a) (id r)) as [E | E].
    + exfalso; apply Ha; rewrite E; now apply In_ids.
    + now apply IH.
Qed.

Section Rowid.

Variable t : Table.
Hypothesis Hwf : wf_table t.

Lemma wf_NoDup : NoDup (ids (rows t)).
Proof. apply sorted_NoDup, Hwf. Qed.

Lemma wf_id_range (i : Z) : In i (ids (rows t)) -> 1 <= i <= seq t.
Proof.
  destruct Hwf as (_ & Hb & _); rewrite Forall_forall in Hb; apply Hb.
Qed.

Lemma wf_fits (i : Z) : In i (ids (rows t)) -> fits_integer i = true.
Proof.
  intros Hi; apply wf_id_range in Hi.
  destruct Hwf as (_ & _ & Hs).
  unfold fits_integer, MIN_ROWID, MAX_ROWID in *.
  apply andb_true_intro; split; apply Z.leb_le; lia.
Qed.

Lemma new_rowid_wf :
  new_rowid t = if seq t =? MAX_ROWID then None else Some (seq t + 1).
Proof.
  unfold new_rowid.
  destruct (last_row (rows t)) as [r |] eqn:El.
  - apply last_row_In, In_ids, wf_id_range in El.
    destruct Hwf as (_ & _ & Hs).
    destruct (Z.leb_spec MAX_ROWID (id r)) as [Hm | Hm].
    + assert (seq t = MAX_ROWID) as -> by lia.
      now rewrite Z.eqb_refl.
    + destruct (seq t =? MAX_ROWID); cbn; [reflexivity |].
      f_equal; lia.
  - destruct (seq t =? MAX_ROWID); cbn; [reflexivity |].
    destruct Hwf as (_ & _ & Hs); f_equal; lia.
Qed.

Lemma new_rowid_available :
  seq t < MAX_ROWID -> new_rowid t = Some (seq t + 1).
Proof.
  intros Hlt; rewrite new_rowid_wf.
  destruct (Z.eqb_spec (seq t) MAX_ROWID); [lia | reflexivity].
Qed.

Lemma wf_insert (r : Student) :
  seq t < MAX_ROWID -> id r = seq t + 1 ->
  wf_table (mk_table (rows t ++ [r]) (id r)).
Proof.
  intros Hlt Hid; destruct Hwf as (Hs & Hb & Hc).
  unfold wf_table; cbn [rows seq]; rewrite ids_app; cbn.
  repeat split; try lia.
  - apply sorted_snoc; [exact Hs |].
    eapply Forall_impl; [| exact Hb]; cbn; intros; lia.
  - apply Forall_app; split.
    + eapply Forall_impl; [| exact Hb]; cbn; intros; lia.
    + repeat constructor; lia.
Qed.

Lemma wf_overwrite (sid : Z) (n e p c : string) :
  wf_table
    (mk_table (map (fun r => if has_id sid r then set_fields n e p c r
                             else r) (rows t)) (seq t)).
Proof.
  unfold wf_table; cbn [rows seq]; rewrite ids_overwrite; exact Hwf.
Qed.

Lemma wf_remove (sid : Z) :
  wf_table
    (mk_table (filter (fun r => negb (has_id sid r)) (rows t)) (seq t)).
Proof.
  destruct Hwf as (Hs & Hb & Hc).
  unfold wf_table; cbn [rows seq]; repeat split; try lia.
  - now apply sorted_filter.
  - now apply bounded_filter.
Qed.

End Rowid.

(* ================================================================== *)
(** ** The calls, one by one *)
(* ================================================================== *)

Section Calls.

Variable t : Table.

Lemma init_database_present :
  init_database (with_table t) = Returned tt (with_table t).
Proof. reflexivity. Qed.

Lemma init_database_absent :
  init_database no_table = Returned tt (with_table empty_table).
Proof. reflexivity. Qed.

Lemma view_all_students_rows :
  view_all_students (with_table t) = Returned (rows t) (with_table t).
Proof. reflexivity. Qed.

Lemma get_student_by_id_rows (sid : Z) :
  get_student_by_id sid (with_table t) =
  if fits_integer sid
  then Returned (fetchone (filter (has_id sid) (rows t))) (with_table t)
  else Raised int_too_large (with_table t).
Proof.
  unfold get_student_by_id, with_connection, sql_bind, execute, commit, sql_ret;
  cbn.
  now destruct (fits_integer sid).
Qed.

Lemma update_student_rows (sid : Z) (n e p c : string) :
  update_student sid n e p c (with_table t) =
  if fits_integer sid
  then Returned tt
         (with_table
            (mk_table (map (fun r => if has_id sid r
                                     then set_fields n e p c r else r)
                           (rows t)) (seq t)))
  else Raised int_too_large (with_table t).
Proof.
  unfold update_student, with_connection, sql_bind, execute, commit, sql_ret;
  cbn.
  now destruct (fits_integer sid).
Qed.

Lemma delete_student_rows (sid : Z) :
  delete_student sid (with_table t) =
  if fits_integer sid
  then Returned tt
         (with_table
            (mk_table (filter (fun r => negb (has_id sid r)) (rows t))
                      (seq t)))
  else Raised int_too_large (with_table t).
Proof.
  unfold delete_student, with_connection, sql_bind, execute, commit, sql_ret;
  cbn.
  now destruct (fits_integer sid).
Qed.

Lemma insert_student_rows (now : datetime) (n e p c : string) :
  insert_student now n e p c (with_table t) =
  match new_rowid t with
  | Some v =>
      Returned tt
        (with_table
           (mk_table
              (rows t ++ [mk_student v n e p c
                            (strftime timestamp_format now)]) v))
  | None => Raised database_full (with_table t)
  end.
Proof.
  unfold insert_student, with_connection, sql_bind, execute, commit, sql_ret;
  cbn.
  now destruct (new_rowid t).
Qed.

Hypothesis Hwf : wf_table t.

Lemma insert_student_appends (now : datetime) (n e p c : string) :
  seq t < MAX_ROWID ->
  insert_student now n e p c (with_table t) =
  Returned tt
    (with_table
       (mk_table
          (rows t ++ [mk_student (seq t + 1) n e p c
                        (strftime timestamp_format now)]) (seq t + 1))).
Proof.
  intros Hlt.
  now rewrite insert_student_rows, new_rowid_available.
Qed.

Lemma insert_student_full (now : datetime) (n e p c : string) :
  seq t = MAX_ROWID ->
  insert_student now n e p c (with_table t)
= Raised database_full (with_table t).
Proof.
  intros Heq.
  rewrite insert_student_rows, new_rowid_wf by exact Hwf.
  now rewrite Heq, Z.eqb_refl.
Qed.

Lemma get_student_by_id_present (r : Student) :
  In r (rows t) ->
  get_student_by_id (id r) (with_table t) = Returned (Some r) (with_table t).
Proof.
  intros Hin.
  rewrite get_student_by_id_rows, (wf_fits t Hwf) by now apply In_ids.
  rewrite select_present; [reflexivity | now apply wf_NoDup | exact Hin].
Qed.

End Calls.


(* ================================================================== *)
(** ** The invariant along a history *)
(* ================================================================== *)

Section Histories.

Lemma filter_sorted (p : Z -> bool) (l : list Z) :
  StronglySorted Z.lt l -> StronglySorted Z.lt (filter p l).
Proof.
  induction 1 as [| a l Hs IH Ha]; cbn; [constructor |].
  destruct (p a); [| exact IH].
  constructor; [exact IH |].
  rewrite Forall_forall in *; intros x Hx; apply Ha.
  now apply filter_In in Hx.
Qed.

Lemma sorted_app (l1 l2 : list Z) :
  StronglySorted Z.lt l1 -> StronglySorted Z.lt l2 ->
  (forall x y, In x l1 -> In y l2 -> x < y) ->
  StronglySorted Z.lt (l1 ++ l2).
Proof.
  induction 1 as [| a l Hs IH Ha]; cbn; intros H2 Hlt; [exact H2 |].
  constructor.
  - apply IH; [exact H2 | intros; apply Hlt; [now right | assumption]].
  - apply Forall_app; split; [exact Ha |].
    rewrite Forall_forall; intros y Hy; apply Hlt; [now left | exact Hy].
Qed.

Lemma mem_In (i : Z) (l : list Z) : mem i l = true <-> In i l.
Proof.
  unfold mem; rewrite existsb_exists; split.
  - intros (x & Hx & E); apply Z.eqb_eq in E; now subst.
  - intros H; exists i; split; [exact H | apply Z.eqb_refl].
Qed.

Lemma In_fresh_ids (before after : Database) (i : Z) :
  In i (fresh_ids before after) <->
  In i (ids (listing after)) /\ ~ In i (ids (listing before)).
Proof.
  unfold fresh_ids; rewrite filter_In, negb_true_iff.
  rewrite <- mem_In with (l := ids (listing before)).
  destruct (mem i (ids (listing before))); intuition congruence.
Qed.

(** One call: the invariant is kept, the counter does not go down, and
    a record in the table afterwards has the id and the enrollment date
    of a record that was there before, or an id above the old counter. *)
Lemma perform_step (r : Request) (db : Database) :
  wf_database db ->
  let db' := db_after (perform r) db in
  wf_database db' /\
  counter db <= counter db' /\
  (forall x', In x' (listing db') ->
              (exists x, In x (listing db) /\ id x = id x' /\
                         enrollment_date x = enrollment_date x') \/
              counter db < id x' <= counter db').
Proof.
  destruct db as [[t |]]; unfold wf_database; cbn [students].
  2:{ intros _; destruct r; cbn; repeat split;
      try (intros i []); try (unfold MAX_ROWID; cbn; lia);
      unfold empty_table; cbn; constructor. }
  intros Hwf.
  assert (forall u : Table,
             wf_table u ->
             (forall x', In x' (rows u) ->
                         exists x, In x (rows t) /\ id x = id x' /\
                                   enrollment_date x = enrollment_date x') ->
             seq u = seq t ->
             wf_database (with_table u) /\
             counter (with_table t) <= counter (with_table u) /\
             (forall x', In x' (listing (with_table u)) ->
                (exists x, In x (listing (with_table t)) /\ id x = id x' /\
                           enrollment_date x = enrollment_date x') \/
                counter (with_table t) < id x' <= counter (with_table u)))
    as Hsame.
  { intros u Hu Hrows Hseq.
    split; [exact Hu | split; [cbn; lia |]].
    intros x' Hx'; left; now apply Hrows. }
  assert (forall x', In x' (rows t) ->
                     exists x, In x (rows t) /\ id x = id x' /\
                               enrollment_date x = enrollment_date x')
    as Hrefl by (intros x' Hx'; now exists x').
  change (mk_database (Some t)) with (with_table t).
  destruct r as [| now n e p c | | sid | sid n e p c | sid];
    cbv zeta; unfold db_after; cbn [perform].
  - rewrite init_database_present; apply Hsame; auto.
  - rewrite insert_student_rows, new_rowid_wf by exact Hwf.
    destruct (Z.eqb_spec (seq t) MAX_ROWID) as [E | E].
    + apply Hsame; auto.
    + assert (seq t < MAX_ROWID) as Hlt
          by (destruct Hwf as (_ & _ & ?); lia).
      set (r := mk_student (seq t + 1) n e p c
                           (strftime timestamp_format now)).
      split; [| split].
      * apply (wf_insert t Hwf r Hlt eq_refl).
      * cbn; lia.
      * intros x' Hx'; change (In x' (rows t ++ [r])) in Hx'.
        apply in_app_or in Hx'.
        destruct Hx' as [Hx' | [<- | []]];
          [left; now apply Hrefl | right; cbn; lia].
  - apply Hsame; auto.
  - unfold bind; rewrite get_student_by_id_rows.
    destruct (fits_integer sid); apply Hsame; auto.
  - rewrite update_student_rows.
    destruct (fits_integer sid); [| apply Hsame; auto].
    apply Hsame; [now apply wf_overwrite | | reflexivity].
    cbn [rows]; intros x' Hx'; apply in_map_iff in Hx'.
    destruct Hx' as (x & <- & Hx); exists x.
    split; [exact Hx |]; now destruct (has_id sid x).
  - rewrite delete_student_rows.
    destruct (fits_integer sid); [| apply Hsame; auto].
    apply Hsame; [now apply wf_remove | | reflexivity].
    cbn [rows]; intros x' Hx'; apply filter_In in Hx'.
    apply Hrefl, Hx'.
Qed.

Lemma perform_step_ids (r : Request) (db : Database) (i : Z) :
  wf_database db ->
  In i (ids (listing (db_after (perform r) db))) ->
  In i (ids (listing db)) \/
  counter db < i <= counter (db_after (perform r) db).
Proof.
  intros Hwf Hi; destruct (perform_step r db Hwf) as (_ & _ & H).
  unfold ids in *; apply in_map_iff in Hi; destruct Hi as (x' & <- & Hx').
  destruct (H x' Hx') as [(x & Hx & E & _) | Hnew]; [left | now right].
  rewrite <- E; now apply in_map.
Qed.

Lemma wf_listing (db : Database) (i : Z) :
  wf_database db -> In i (ids (listing db)) -> 1 <= i <= counter db.
Proof.
  destruct db as [[t |]]; unfold wf_database; cbn; [| tauto].
  intros Hwf; now apply wf_id_range.
Qed.

Lemma wf_listing_sorted (db : Database) :
  wf_database db -> StronglySorted Z.lt (ids (listing db)).
Proof.
  destruct db as [[t |]]; unfold wf_database; cbn; [| constructor].
  intros Hwf; apply Hwf.
Qed.

Lemma run_wf (rs : list Request) (db : Database) :
  wf_database db -> wf_database (run rs db).
Proof.
  revert db; induction rs as [| r rs IH]; cbn; intros db Hwf; [exact Hwf |].
  apply IH, perform_step, Hwf.
Qed.

(** Every database that the calls of the store build from a new file
    satisfies the invariant. *)
Lemma reachable_wf (rs : list Request) : wf_database (run rs no_table).
Proof. apply run_wf; exact I. Qed.

Lemma fresh_ids_step (r : Request) (db : Database) :
  wf_database db ->
  let db' := db_after (perform r) db in
  StronglySorted Z.lt (fresh_ids db db') /\
  forall i, In i (fresh_ids db db') -> counter db < i <= counter db'.
Proof.
  intros Hwf db'.
  destruct (perform_step r db Hwf) as (Hwf' & Hc & _).
  fold db' in Hwf', Hc.
  split.
  - apply filter_sorted, wf_listing_sorted, Hwf'.
  - intros i Hin; apply In_fresh_ids in Hin.
    destruct Hin as (Hafter & Hbefore).
    destruct (perform_step_ids r db i Hwf Hafter); tauto.
Qed.

(** The ids handed out along a history go up, and start above the
    counter. *)
Lemma assigned_sorted (rs : list Request) (db : Database) :
  wf_database db ->
  StronglySorted Z.lt (assigned rs db) /\
  Forall (fun i => counter db < i) (assigned rs db).
Proof.
  revert db; induction rs as [| r rs IH]; cbn [assigned]; intros db Hwf.
  - split; constructor.
  - destruct (perform_step r db Hwf) as (Hwf' & Hc & _).
    destruct (fresh_ids_step r db Hwf) as (Hs & Hb).
    destruct (IH _ Hwf') as (IHs & IHb).
    rewrite Forall_forall in IHb.
    split.
    + apply sorted_app; [exact Hs | exact IHs |].
      intros x y Hx Hy; apply Hb in Hx; apply IHb in Hy; lia.
    + apply Forall_app; split; rewrite Forall_forall.
      * intros i Hin; apply Hb in Hin; lia.
      * intros i Hin; apply IHb in Hin; lia.
Qed.

Lemma run_ids (rs : list Request) (db : Database) (i : Z) :
  In i (ids (listing (run rs db))) ->
  In i (ids (listing db)) \/ In i (assigned rs db).
Proof.
  revert db; induction rs as [| r rs IH]; cbn [run assigned]; intros db Hin.
  - now left.
  - destruct (IH _ Hin) as [H | H].
    + destruct (in_dec Z.eq_dec i (ids (listing db))) as [Hd | Hd];
        [now left | right].
      apply in_or_app; left; apply In_fresh_ids; tauto.
    + right; apply in_or_app; now right.
Qed.

End Histories.

Section Reading.

Lemma fetchone_In (l : list Student) (r : Student) :
  fetchone l = Some r -> In r l.
Proof. destruct l; cbn; intros H; [discriminate | injection H; auto]. Qed.

(** A record that [get_student_by_id] returns is a record of the table
    with the id asked for, and the database is as it was. *)
Lemma get_student_by_id_Some
  (sid : Z) (db db' : Database) (r : Student) :
  get_student_by_id sid db = Returned (Some r) db' ->
  In r (listing db) /\ id r = sid /\ db' = db.
Proof.
  destruct db as [[t |]]; [| discriminate].
  change (mk_database (Some t)) with (with_table t).
  rewrite get_student_by_id_rows.
  destruct (fits_integer sid); [| discriminate].
  intros H; injection H as Hf <-.
  apply fetchone_In, filter_In in Hf; destruct Hf as (Hin & Hid).
  apply Z.eqb_eq in Hid; auto.
Qed.

Lemma same_id_same_record (l : list Student) (x y : Student) :
  NoDup (ids l) -> In x l -> In y l -> id x = id y -> x = y.
Proof.
  induction l as [| a l IH]; cbn; intros Hnd Hx Hy E; [contradiction |].
  inversion Hnd as [| ? ? Ha Hl]; subst.
  destruct Hx as [-> | Hx], Hy as [-> | Hy]; auto.
  - exfalso; apply Ha; rewrite E; now apply In_ids.
  - exfalso; apply Ha; rewrite <- E; now apply In_ids.
Qed.

(** Along a history, a record of the table has the id and the date of a
    record of the initial table, or an id above the initial counter. *)
Lemma run_dates (rs : list Request) (db : Database) (x' : Student) :
  wf_database db ->
  In x' (listing (run rs db)) ->
  (exists x, In x (listing db) /\ id x = id x' /\
             enrollment_date x = enrollment_date x') \/
  counter db < id x'.
Proof.
  revert db; induction rs as [| r rs IH]; cbn [run]; intros db Hwf Hin.
  - left; now exists x'.
  - destruct (perform_step r db Hwf) as (Hwf' & Hc & Hstep).
    destruct (IH _ Hwf' Hin) as [(y & Hy & Ey & Dy) | Hnew]; [| right; lia].
    destruct (Hstep y Hy) as [(x & Hx & Ex & Dx) | Hnew]; [| right; lia].
    left; exists x; repeat split; [exact Hx | congruence | congruence].
Qed.

(** An update, whatever its id and values, leaves a record of the table
    readable under its id, with its enrollment date. *)
Lemma update_keeps_date
  (t : Table) (r : Student) (sid : Z) (n e p c : string) :
  wf_table t -> In r (rows t) ->
  let db' := db_after (update_student sid n e p c) (with_table t) in
  exists r', get_student_by_id (id r) db' = Returned (Some r') db' /\
             id r' = id r /\ enrollment_date r' = enrollment_date r.
Proof.
  intros Hwf Hin; cbv zeta; unfold db_after.
  rewrite update_student_rows.
  destruct (fits_integer sid).
  - set (ov := fun x => if has_id sid x then set_fields n e p c x else x).
    exists (ov r).
    assert (id (ov r) = id r) as E by apply id_overwrite.
    split; [| split; [exact E | apply date_overwrite]].
    rewrite <- E.
    apply get_student_by_id_present; [now apply wf_overwrite |].
    cbn [rows]; now apply in_map.
  - exists r; split; [now apply get_student_by_id_present | auto].
Qed.

Lemma nth_error_overwrite
  (sid : Z) (n e p c : string) (l : list Student) (k : nat) (r : Student) :
  id r <> sid ->
  nth_error (map (fun x => if has_id sid x then set_fields n e p c x else x)
                 l) k = Some r
  <-> nth_error l k = Some r.
Proof.
  intros Hid; rewrite nth_error_map.
  assert (has_id sid r = false) as Hr by now apply Z.eqb_neq.
  destruct (nth_error l k) as [x |]; cbn; [| tauto].
  split; intros H; injection H as H.
  - destruct (has_id sid x) eqn:Ex; [| now subst].
    exfalso; apply Hid; subst r; cbn; now apply Z.eqb_eq.
  - subst x; now rewrite Hr.
Qed.

End Reading.

Lemma filter_known (l known : list Z) :
  (forall i, In i l -> In i known) ->
  filter (fun i => negb (mem i known)) l = [].
Proof.
  induction l as [| a l IH]; cbn; intros H; [reflexivity |].
  assert (mem a known = true) as -> by (apply mem_In, H; now left).
  cbn; apply IH; intros i Hi; apply H; now right.
Qed.

(* ================================================================== *)
(** ** The contract of the store *)
(* ================================================================== *)

(** C1.  In every state of the store in which a rowid is left, creating a
    record with four non-empty fields returns, and listing the records
    afterwards shows the records listed before followed by exactly one
    more, which carries the four inputs and an id that no record of the
    store had before the call and no other record has after it. *)
Theorem create_then_list_all
  (t : Table) (now : datetime) (n e p c : string) :
  wf_table t -> seq t < MAX_ROWID ->
  n <> "" -> e <> "" -> p <> "" -> c <> "" ->
  exists (db' : Database) (r : Student),
    insert_student now n e p c (with_table t) = Returned tt db' /\
    view_all_students (with_table t) = Returned (rows t) (with_table t) /\
    view_all_students db' = Returned (rows t ++ [r]) db' /\
    name r = n /\ email r = e /\ phone r = p /\ course r = c /\
    ~ In (id r) (ids (rows t)) /\
    NoDup (ids (rows t ++ [r])).
Proof.
  intros Hwf Hlt _ _ _ _.
  set (r := mk_student (seq t + 1) n e p c (strftime timestamp_format now)).
  exists (with_table (mk_table (rows t ++ [r]) (seq t + 1))), r.
  split; [now apply insert_student_appends |].
  split; [reflexivity |].
  split; [reflexivity |].
  repeat (split; [reflexivity |]).
  assert (~ In (id r) (ids (rows t))) as Hfresh.
  { intros Hin; apply (wf_id_range t Hwf) in Hin; cbn in Hin; lia. }
  split; [exact Hfresh |].
  apply (wf_NoDup _ (wf_insert t Hwf r Hlt eq_refl)).
Qed.

Lemma create_then_list_all_witness :
  exists (db' : Database) (r : Student),
    insert_student sample_now "Alice" "a@x.com" "555-0001" "Data Science"
                   (with_table empty_table) = Returned tt db' /\
    view_all_students (with_table empty_table)
    = Returned (rows empty_table) (with_table empty_table) /\
    view_all_students db' = Returned (rows empty_table ++ [r]) db' /\
    name r = "Alice" /\ email r = "a@x.com" /\ phone r = "555-0001" /\
    course r = "Data Science" /\
    ~ In (id r) (ids (rows empty_table)) /\
    NoDup (ids (rows empty_table ++ [r])).
Proof.
  apply (create_then_list_all empty_table sample_now
           "Alice" "a@x.com" "555-0001" "Data Science").
  - solve_wf.
  - unfold MAX_ROWID; cbn; lia.
  - discriminate.
  - discriminate.
  - discriminate.
  - discriminate.
Defined.

(** C2.  A record is created with the enrollment date
    [strftime("%Y-%m-%d %H:%M:%S")] of the instant of the call, a text of
    the shape YYYY-MM-DD HH:MM:SS that reads back as that instant to the
    second; after any update (any id, any values) every record of the
    store, the new one included, is read under its id with the enrollment
    date it had, and however the history goes on, a record read under one
    of these ids has the enrollment date that id had. *)
Theorem enrollment_date_write_once
  (t : Table) (now : datetime) (n e p c : string) :
  wf_table t -> seq t < MAX_ROWID -> clock_reading now ->
  exists (db1 : Database) (r : Student),
    insert_student now n e p c (with_table t) = Returned tt db1 /\
    listing db1 = rows t ++ [r] /\
    enrollment_date r = strftime timestamp_format now /\
    timestamp_shape (enrollment_date r) = true /\
    strptime (enrollment_date r) = Some (to_the_second now) /\
    (forall (x : Student) (sid : Z) (n' e' p' c' : string),
        In x (listing db1) ->
        let db2 := db_after (update_student sid n' e' p' c') db1 in
        exists x', get_student_by_id (id x) db2 = Returned (Some x') db2 /\
                   enrollment_date x' = enrollment_date x) /\
    (forall (x : Student) (rs : list Request) (x' : Student) (db' : Database),
        In x (listing db1) ->
        get_student_by_id (id x) (run rs db1) = Returned (Some x') db' ->
        enrollment_date x' = enrollment_date x).
Proof.
  intros Hwf Hlt Hnow.
  set (r := mk_student (seq t + 1) n e p c (strftime timestamp_format now)).
  set (t1 := mk_table (rows t ++ [r]) (seq t + 1)).
  assert (wf_table t1) as Hwf1 by apply (wf_insert t Hwf r Hlt eq_refl).
  exists (with_table t1), r.
  split; [now apply insert_student_appends |].
  split; [reflexivity |].
  split; [reflexivity |].
  split; [apply strftime_shape |].
  split; [now apply strptime_strftime |].
  split.
  - intros x sid n' e' p' c' Hx.
    destruct (update_keeps_date t1 x sid n' e' p' c' Hwf1 Hx)
      as (x' & Hget & _ & Hdate).
    now exists x'.
  - intros x rs x' db' Hx Hget.
    apply get_student_by_id_Some in Hget; destruct Hget as (Hin & Hid & _).
    destruct (run_dates rs (with_table t1) x' Hwf1 Hin)
      as [(y & Hy & Ey & Dy) | Hnew].
    + rewrite <- Dy; f_equal.
      apply (same_id_same_record (rows t1)); auto.
      * now apply wf_NoDup.
      * congruence.
    + apply In_ids, (wf_id_range t1 Hwf1) in Hx.
      rewrite Hid in Hnew; cbn in Hnew, Hx; lia.
Qed.

Lemma enrollment_date_write_once_witness :
  exists (db1 : Database) (r : Student),
    insert_student sample_now "Bob" "b@x.com" "555-0002" "Data Science"
                   (with_table sample_table) = Returned tt db1 /\
    listing db1 = rows sample_table ++ [r] /\
    enrollment_date r = strftime timestamp_format sample_now /\
    timestamp_shape (enrollment_date r) = true /\
    strptime (enrollment_date r) = Some (to_the_second sample_now) /\
    (forall (x : Student) (sid : Z) (n' e' p' c' : string),
        In x (listing db1) ->
        let db2 := db_after (update_student sid n' e' p' c') db1 in
        exists x', get_student_by_id (id x) db2 = Returned (Some x') db2 /\
                   enrollment_date x' = enrollment_date x) /\
    (forall (x : Student) (rs : list Request) (x' : Student) (db' : Database),
        In x (listing db1) ->
        get_student_by_id (id x) (run rs db1) = Returned (Some x') db' ->
        enrollment_date x' = enrollment_date x).
Proof.
  apply (enrollment_date_write_once sample_table sample_now).
  - solve_wf.
  - unfold MAX_ROWID; cbn; lia.
  - unfold clock_reading; cbn; lia.
Defined.

(** C3, as it is stated for every id, fails on an id that is no INTEGER:
    on the empty table the id 2^63, which no record has, makes each of the
    three calls raise [OverflowError] (the database is left as it was). *)
Lemma unknown_id_out_of_range :
  ~ In 9223372036854775808 (ids (rows empty_table)) /\
  get_student_by_id 9223372036854775808 (with_table empty_table)
  = Raised int_too_large (with_table empty_table) /\
  get_student_by_id 9223372036854775808 (with_table empty_table)
  <> Returned None (with_table empty_table) /\
  update_student 9223372036854775808 "Bob" "b@x.com" "555-0002" "Data Science"
                 (with_table empty_table)
  = Raised int_too_large (with_table empty_table) /\
  delete_student 9223372036854775808 (with_table empty_table)
  = Raised int_too_large (with_table empty_table).
Proof.
  split; [intros [] |].
  split; [reflexivity |].
  split; [discriminate |].
  split; reflexivity.
Qed.

(** C3, amended.  For an id of the INTEGER range (from -2^63 to 2^63 - 1)
    that no record of the store has, [get_student_by_id] returns [None],
    and [update_student] and [delete_student] return leaving the database,
    and so the number and the contents of its records, as they were; none
    of the three raises. *)
Theorem unknown_id_is_no_error (t : Table) (sid : Z) (n e p c : string) :
  fits_integer sid = true ->
  ~ In sid (ids (rows t)) ->
  get_student_by_id sid (with_table t) = Returned None (with_table t) /\
  update_student sid n e p c (with_table t) = Returned tt (with_table t) /\
  delete_student sid (with_table t) = Returned tt (with_table t).
Proof.
  intros Hfit Habs.
  rewrite get_student_by_id_rows, update_student_rows, delete_student_rows.
  rewrite Hfit, select_absent, overwrite_absent, remove_absent by exact Habs.
  now destruct t.
Qed.

Lemma unknown_id_is_no_error_witness :
  get_student_by_id 2 (with_table sample_table)
  = Returned None (with_table sample_table) /\
  update_student 2 "Bob" "" "555-0002" "Data Science" (with_table sample_table)
  = Returned tt (with_table sample_table) /\
  delete_student 2 (with_table sample_table)
  = Returned tt (with_table sample_table).
Proof.
  apply (unknown_id_is_no_error sample_table 2).
  - reflexivity.
  - cbn; lia.
Defined.

(** C4.  For a record of the store, updating the four fields under its id
    returns, and reading that id afterwards returns the record with the
    four new values, the same id and the same enrollment date. *)
Theorem update_then_get (t : Table) (r : Student) (n e p c : string) :
  wf_table t -> In r (rows t) ->
  exists db' : Database,
    update_student (id r) n e p c (with_table t) = Returned tt db' /\
    get_student_by_id (id r) db'
    = Returned (Some (mk_student (id r) n e p c (enrollment_date r))) db'.
Proof.
  intros Hwf Hin.
  assert (fits_integer (id r) = true) as Hfit
      by (apply (wf_fits t Hwf); now apply In_ids).
  eexists; split.
  - rewrite update_student_rows, Hfit; reflexivity.
  - rewrite get_student_by_id_rows, Hfit; cbn [rows].
    rewrite select_overwrite, select_present;
      [reflexivity | now apply wf_NoDup | exact Hin].
Qed.

Lemma update_then_get_witness :
  exists db' : Database,
    update_student (id carol) "Caroline" "caro@x.org" "555-0103"
                   "Machine Learning" (with_table sample_table)
    = Returned tt db' /\
    get_student_by_id (id carol) db'
    = Returned (Some (mk_student (id carol) "Caroline" "caro@x.org" "555-0103"
                                 "Machine Learning" (enrollment_date carol)))
               db'.
Proof.
  apply (update_then_get sample_table carol).
  - solve_wf.
  - cbn; tauto.
Defined.

(** C5.  For an id that a record of the store has, [delete_student]
    returns, the listing afterwards is one record shorter than before, and
    reading that id afterwards returns [None]. *)
Theorem delete_then_get (t : Table) (sid : Z) :
  wf_table t -> In sid (ids (rows t)) ->
  exists (db' : Database) (l' : list Student),
    delete_student sid (with_table t) = Returned tt db' /\
    view_all_students (with_table t) = Returned (rows t) (with_table t) /\
    view_all_students db' = Returned l' db' /\
    S (List.length l') = List.length (rows t) /\
    get_student_by_id sid db' = Returned None db'.
Proof.
  intros Hwf Hin.
  assert (fits_integer sid = true) as Hfit by now apply (wf_fits t Hwf).
  eexists; eexists; split; [| split; [| split; [| split]]].
  - rewrite delete_student_rows, Hfit; reflexivity.
  - reflexivity.
  - reflexivity.
  - cbn [rows]; apply remove_one; [now apply wf_NoDup | exact Hin].
  - rewrite get_student_by_id_rows, Hfit; cbn [rows].
    now rewrite select_remove.
Qed.

Lemma delete_then_get_witness :
  exists (db' : Database) (l' : list Student),
    delete_student 1 (with_table sample_table) = Returned tt db' /\
    view_all_students (with_table sample_table)
    = Returned (rows sample_table) (with_table sample_table) /\
    view_all_students db' = Returned l' db' /\
    S (List.length l') = List.length (rows sample_table) /\
    get_student_by_id 1 db' = Returned None db'.
Proof.
  apply (delete_then_get sample_table 1).
  - solve_wf.
  - cbn; tauto.
Defined.

(** C6.  From any state of the store and along any sequence of calls: ids
    enter the table only through a create, which takes the id from the
    counter of the table and not from its arguments; the ids handed out go
    strictly up; no two records ever present share an id (the ids of the
    initial table and the ids handed out are pairwise distinct, whatever
    was deleted in between, and so are the ids of the table at the end);
    the id of a deleted record is not handed out again; an update leaves
    the ids of the table as they are. *)
Theorem ids_unique_monotonic_never_reused
  (db : Database) (rs : list Request) :
  wf_database db ->
  (forall r : Request,
      (forall now n e p c, r <> Create now n e p c) ->
      fresh_ids db (db_after (perform r) db) = []) /\
  (forall now n e p c t,
      students db = Some t -> seq t < MAX_ROWID ->
      fresh_ids db (db_after (insert_student now n e p c) db) = [seq t + 1]) /\
  StronglySorted Z.lt (assigned rs db) /\
  NoDup (ids (listing db) ++ assigned rs db) /\
  NoDup (ids (listing (run rs db))) /\
  (forall i, In i (ids (listing (run rs db))) ->
             In i (ids (listing db)) \/ In i (assigned rs db)) /\
  (forall sid,
      In sid (ids (listing db)) ->
      let db' := db_after (delete_student sid) db in
      ~ In sid (ids (listing db')) /\ ~ In sid (assigned rs db')) /\
  (forall sid n e p c,
      ids (listing (db_after (update_student sid n e p c) db))
      = ids (listing db)).
Proof.
  intros Hwf.
  destruct (assigned_sorted rs db Hwf) as (Hs & Hb).
  rewrite Forall_forall in Hb.
  split; [| split; [| split; [| split; [| split; [| split; [| split]]]]]].
  - intros r Hr.
    destruct (fresh_ids db (db_after (perform r) db)) as [| i l] eqn:E;
      [reflexivity | exfalso].
    assert (In i (fresh_ids db (db_after (perform r) db))) as Hi
        by (rewrite E; now left).
    apply In_fresh_ids in Hi; destruct Hi as (Hafter & Hbefore).
    apply Hbefore; clear E Hbefore.
    destruct db as [[t |]].
    + change (mk_database (Some t)) with (with_table t) in *.
      unfold db_after in Hafter.
      destruct r as [| now n e p c | | sid | sid n e p c | sid];
        cbn [perform] in Hafter.
      * exact Hafter.
      * exfalso; now apply (Hr now n e p c).
      * exact Hafter.
      * unfold bind in Hafter; rewrite get_student_by_id_rows in Hafter.
        destruct (fits_integer sid); exact Hafter.
      * rewrite update_student_rows in Hafter.
        destruct (fits_integer sid); [| exact Hafter].
        cbn [listing with_table students rows] in Hafter.
        rewrite ids_overwrite in Hafter; exact Hafter.
      * rewrite delete_student_rows in Hafter.
        destruct (fits_integer sid); [| exact Hafter].
        cbn [listing with_table students rows] in Hafter.
        unfold ids in *; apply in_map_iff in Hafter.
        destruct Hafter as (x & <- & Hx); apply filter_In in Hx.
        apply in_map, Hx.
    + destruct r; exact Hafter.
  - intros now n e p c t Ht Hlt.
    destruct db as [[u |]]; cbn in Ht; [| discriminate].
    injection Ht as ->.
    change (mk_database (Some t)) with (with_table t) in *.
    unfold db_after; rewrite insert_student_appends by assumption.
    unfold fresh_ids; cbn [listing with_table students rows].
    rewrite ids_app, filter_app; cbn [ids map filter].
    cbn [id].
    assert (mem (seq t + 1) (ids (rows t)) = false) as ->.
    { destruct (mem (seq t + 1) (ids (rows t))) eqn:E; [| reflexivity].
      apply mem_In, (wf_id_range t Hwf) in E; lia. }
    now rewrite (filter_known (ids (rows t)) (ids (rows t))).
  - exact Hs.
  - apply NoDup_app.
    + apply sorted_NoDup, wf_listing_sorted, Hwf.
    + now apply sorted_NoDup.
    + intros i Hi Ha; apply (wf_listing db i Hwf) in Hi; apply Hb in Ha; lia.
  - apply sorted_NoDup, wf_listing_sorted, run_wf, Hwf.
  - intros i; apply run_ids.
  - intros sid Hsid db'.
    destruct (perform_step (Delete sid) db Hwf) as (Hwf' & Hc & _).
    cbn [perform] in Hwf', Hc; fold db' in Hwf', Hc.
    assert (counter db' = counter db) as Ec.
    { subst db'; unfold db_after; destruct db as [[t |]]; [| reflexivity].
      change (mk_database (Some t)) with (with_table t).
      rewrite delete_student_rows; now destruct (fits_integer sid). }
    split.
    + subst db'; unfold db_after; destruct db as [[t |]]; [| intros []].
      change (mk_database (Some t)) with (with_table t) in *.
      rewrite delete_student_rows.
      rewrite (wf_fits t Hwf sid Hsid).
      cbn [listing with_table students rows].
      unfold ids; rewrite in_map_iff; intros (x & Ex & Hx).
      apply filter_In in Hx; destruct Hx as (_ & Hx).
      unfold has_id in Hx; rewrite Ex, Z.eqb_refl in Hx; discriminate.
    + intros Ha.
      destruct (assigned_sorted rs db' Hwf') as (_ & Hb').
      rewrite Forall_forall in Hb'; apply Hb' in Ha.
      apply (wf_listing db sid Hwf) in Hsid; lia.
  - intros sid n e p c; unfold db_after.
    destruct db as [[t |]]; [| reflexivity].
    change (mk_database (Some t)) with (with_table t).
    rewrite update_student_rows; destruct (fits_integer sid); [| reflexivity].
    cbn [listing with_table students rows]; apply ids_overwrite.
Qed.

Lemma ids_unique_monotonic_never_reused_witness :
  wf_database (with_table sample_table) /\
  assigned sample_history (with_table sample_table) = [4; 5] /\
  StronglySorted Z.lt (assigned sample_history (with_table sample_table)) /\
  NoDup (ids (listing (with_table sample_table))
         ++ assigned sample_history (with_table sample_table)) /\
  ~ In 3 (assigned sample_history
            (db_after (delete_student 3) (with_table sample_table))).
Proof.
  assert (wf_database (with_table sample_table)) as Hwf by solve_wf.
  destruct (ids_unique_monotonic_never_reused
              (with_table sample_table) sample_history Hwf)
    as (_ & _ & Hs & Hn & _ & _ & Hd & _).
  split; [exact Hwf |].
  split; [reflexivity |].
  split; [exact Hs |].
  split; [exact Hn |].
  apply (Hd 3); cbn; tauto.
Defined.

(** C7.  [init_database] never raises; where the table exists it returns
    leaving the database, its records included, as it was; where the table
    is absent it creates it, empty; and calling it again, any number of
    times, changes nothing more. *)
Theorem init_database_idempotent :
  (forall t, init_database (with_table t) = Returned tt (with_table t)) /\
  init_database no_table = Returned tt (with_table empty_table) /\
  (forall db, exists t,
      init_database db = Returned tt (with_table t) /\
      rows t = listing db) /\
  (forall db k,
      Nat.iter (S k) (db_after init_database) db = db_after init_database db).
Proof.
  split; [reflexivity |].
  split; [reflexivity |].
  split.
  - intros [[t |]]; [exists t | exists empty_table]; now split.
  - intros db k; induction k as [| k IH]; [reflexivity |].
    change (Nat.iter (S (S k)) (db_after init_database) db)
      with (db_after init_database
              (Nat.iter (S k) (db_after init_database) db)).
    rewrite IH; now destruct db as [[t |]].
Qed.

(** C8.  [view_all_students] returns every record of the table, in the
    order of the table, and leaves the database as it is, so that a second
    call returns the same sequence; on the empty table it returns the empty
    sequence; the records it returns are those that [get_student_by_id]
    returns under their ids; and in every database that the calls of the
    store build from a new file, the sequence is in ascending id. *)
Theorem view_all_students_every_record :
  (forall t,
      view_all_students (with_table t) = Returned (rows t) (with_table t)) /\
  view_all_students (with_table empty_table)
  = Returned [] (with_table empty_table) /\
  (forall t,
      (l1 <- view_all_students ;; l2 <- view_all_students ;; ret (l1, l2))
        (with_table t)
      = Returned (rows t, rows t) (with_table t)) /\
  (forall t r,
      wf_table t ->
      (In r (rows t) <->
       get_student_by_id (id r) (with_table t)
       = Returned (Some r) (with_table t))) /\
  (forall rs, StronglySorted Z.lt (ids (listing (run rs no_table)))).
Proof.
  split; [reflexivity |].
  split; [reflexivity |].
  split; [reflexivity |].
  split.
  - intros t r Hwf; split.
    + now apply get_student_by_id_present.
    + intros H; now apply get_student_by_id_Some in H.
  - intros rs; apply wf_listing_sorted, run_wf; exact I.
Qed.

Lemma view_all_students_every_record_witness :
  wf_table sample_table /\
  (In carol (rows sample_table) <->
   get_student_by_id (id carol) (with_table sample_table)
   = Returned (Some carol) (with_table sample_table)).
Proof.
  split; [solve_wf |].
  apply (proj1 (proj2 (proj2 (proj2 view_all_students_every_record)))).
  solve_wf.
Defined.

(** C9.  The store checks no field for emptiness: whatever the four texts,
    the empty text included, a create (in a state in which a rowid is
    left) returns having appended a row with exactly those texts, and an
    update under the id of a record returns having overwritten the four
    fields of that record with exactly those texts. *)
Theorem store_does_not_validate
  (t : Table) (now : datetime) (n e p c : string) :
  wf_table t -> seq t < MAX_ROWID ->
  insert_student now n e p c (with_table t)
  = Returned tt
      (with_table
         (mk_table
            (rows t ++ [mk_student (seq t + 1) n e p c
                          (strftime timestamp_format now)])
            (seq t + 1))) /\
  (forall r,
      In r (rows t) ->
      exists db',
        update_student (id r) n e p c (with_table t) = Returned tt db' /\
        get_student_by_id (id r) db'
        = Returned (Some (mk_student (id r) n e p c (enrollment_date r))) db').
Proof.
  intros Hwf Hlt; split.
  - now apply insert_student_appends.
  - intros r Hin.
    assert (fits_integer (id r) = true) as Hfit
        by (apply (wf_fits t Hwf); now apply In_ids).
    eexists; split.
    + rewrite update_student_rows, Hfit; reflexivity.
    + rewrite get_student_by_id_rows, Hfit; cbn [rows].
      rewrite select_overwrite, select_present;
        [reflexivity | now apply wf_NoDup | exact Hin].
Qed.

Lemma store_does_not_validate_witness :
  insert_student sample_now "" "" "" "" (with_table sample_table)
  = Returned tt
      (with_table
         (mk_table
            (rows sample_table ++ [mk_student 4 "" "" "" ""
                                     "2024-03-09 14:05:07"])
            4)) /\
  (forall r,
      In r (rows sample_table) ->
      exists db',
        update_student (id r) "" "" "" "" (with_table sample_table)
        = Returned tt db' /\
        get_student_by_id (id r) db'
        = Returned (Some (mk_student (id r) "" "" "" "" (enrollment_date r)))
                   db').
Proof.
  apply (store_does_not_validate sample_table sample_now "" "" "" "").
  - solve_wf.
  - unfold MAX_ROWID; cbn; lia.
Defined.

(** C10.  Whatever the database and the id, and whether the call returns
    or raises: after [update_student] the table has as many records as
    before and every record whose id differs from the given one is at its
    place, unchanged; after [delete_student] the table holds, in their
    order, records it held before, among them every record whose id
    differs from the given one, and it has lost at most one record. *)
Theorem update_delete_frame
  (db : Database) (sid : Z) (n e p c : string) :
  let db1 := db_after (update_student sid n e p c) db in
  let db2 := db_after (delete_student sid) db in
  List.length (listing db1) = List.length (listing db) /\
  (forall k r, id r <> sid ->
               (nth_error (listing db1) k = Some r <->
                nth_error (listing db) k = Some r)) /\
  (exists keep, listing db2 = filter keep (listing db)) /\
  (forall r, id r <> sid -> (In r (listing db2) <-> In r (listing db))) /\
  (wf_database db ->
   (List.length (listing db) <= S (List.length (listing db2)))%nat).
Proof.
  cbv zeta; unfold db_after.
  assert (forall d : Database,
             List.length (listing d) = List.length (listing d) /\
             (forall k r, id r <> sid ->
                          (nth_error (listing d) k = Some r <->
                           nth_error (listing d) k = Some r)) /\
             (exists keep, listing d = filter keep (listing d)) /\
             (forall r, id r <> sid ->
                        (In r (listing d) <-> In r (listing d))) /\
             (wf_database d ->
              (List.length (listing d) <= S (List.length (listing d)))%nat))
    as Hsame.
  { intros d; split; [reflexivity |].
    split; [tauto |].
    split; [| split; [tauto | lia]].
    exists (fun _ => true); symmetry; apply forallb_filter_id.
    now apply forallb_forall. }
  destruct db as [[t |]]; [| apply Hsame].
  change (mk_database (Some t)) with (with_table t) in *.
  rewrite update_student_rows, delete_student_rows.
  destruct (fits_integer sid); [| apply Hsame].
  cbn [listing with_table students rows].
  split; [apply length_map |].
  split; [intros k r Hr; now apply nth_error_overwrite |].
  split; [eexists; reflexivity |].
  split.
  - intros r Hr; rewrite filter_In; split; [tauto |].
    intros Hin; split; [exact Hin |].
    apply negb_true_iff, Z.eqb_neq, Hr.
  - intros Hwf; apply remove_at_most_one, (wf_NoDup t Hwf).
Qed.

Lemma update_delete_frame_witness :
  wf_database (with_table sample_table) /\
  (List.length (listing (with_table sample_table))
   <= S (List.length
           (listing (db_after (delete_student 3) (with_table sample_table)))))%nat.
Proof.
  split; [solve_wf |].
  apply (update_delete_frame (with_table sample_table) 3 "" "" "" "").
  solve_wf.
Defined.

(* ================================================================== *)
(** ** Further properties of the store *)
(* ================================================================== *)

Section Composition.

Lemma on_rows_on_rows (f g : list Student -> list Student) (db : Database) :
  on_rows f (on_rows g db) = on_rows (fun l => f (g l)) db.
Proof. now destruct db as [[t |]]. Qed.

Lemma on_rows_ext (f g : list Student -> list Student) (db : Database) :
  (forall l, f l = g l) -> on_rows f db = on_rows g db.
Proof. intros H; destruct db as [[t |]]; cbn; [now rewrite H | reflexivity]. Qed.

Lemma db_after_update (db : Database) (sid : Z) (n e p c : string) :
  db_after (update_student sid n e p c) db =
  if fits_integer sid then on_rows (overwrite_rows sid n e p c) db else db.
Proof.
  unfold db_after; destruct db as [[t |]].
  - change (mk_database (Some t)) with (with_table t).
    rewrite update_student_rows; now destruct (fits_integer sid).
  - now destruct (fits_integer sid).
Qed.

Lemma db_after_delete (db : Database) (sid : Z) :
  db_after (delete_student sid) db =
  if fits_integer sid then on_rows (remove_rows sid) db else db.
Proof.
  unfold db_after; destruct db as [[t |]].
  - change (mk_database (Some t)) with (with_table t).
    rewrite delete_student_rows; now destruct (fits_integer sid).
  - now destruct (fits_integer sid).
Qed.

Variables sid sid' : Z.
Variables n e p c n' e' p' c' : string.

Lemma overwrite_twice (l : list Student) :
  overwrite_rows sid n' e' p' c' (overwrite_rows sid n e p c l)
  = overwrite_rows sid n' e' p' c' l.
Proof.
  unfold overwrite_rows; rewrite map_map; apply map_ext; intros r.
  destruct (has_id sid r) eqn:E; [| now rewrite E].
  assert (has_id sid (set_fields n e p c r) = true) as -> by exact E.
  reflexivity.
Qed.

Lemma remove_twice (l : list Student) :
  remove_rows sid (remove_rows sid l) = remove_rows sid l.
Proof.
  unfold remove_rows; induction l as [| a l IH]; cbn; [reflexivity |].
  destruct (has_id sid a) eqn:E; cbn; [exact IH |].
  rewrite E; cbn; now rewrite IH.
Qed.

Lemma overwrite_removed (l : list Student) :
  overwrite_rows sid n e p c (remove_rows sid l) = remove_rows sid l.
Proof.
  unfold overwrite_rows, remove_rows; induction l as [| a l IH]; cbn;
    [reflexivity |].
  destruct (has_id sid a) eqn:E; cbn; [exact IH |].
  rewrite E; now rewrite IH.
Qed.

Lemma remove_overwritten (l : list Student) :
  remove_rows sid (overwrite_rows sid n e p c l) = remove_rows sid l.
Proof.
  unfold overwrite_rows, remove_rows; induction l as [| a l IH]; cbn;
    [reflexivity |].
  destruct (has_id sid a) eqn:E.
  - assert (has_id sid (set_fields n e p c a) = true) as -> by exact E.
    exact IH.
  - rewrite E; cbn; now rewrite IH.
Qed.

Lemma overwrite_overwrite_commute (l : list Student) :
  sid <> sid' ->
  overwrite_rows sid' n' e' p' c' (overwrite_rows sid n e p c l)
  = overwrite_rows sid n e p c (overwrite_rows sid' n' e' p' c' l).
Proof.
  intros Hne; unfold overwrite_rows; rewrite !map_map; apply map_ext.
  intros r; unfold has_id.
  destruct (Z.eqb_spec (id r) sid) as [E | E],
           (Z.eqb_spec (id r) sid') as [E' | E']; cbn [id set_fields].
  - congruence.
  - destruct (Z.eqb_spec (id r) sid'), (Z.eqb_spec (id r) sid);
      congruence.
  - destruct (Z.eqb_spec (id r) sid'), (Z.eqb_spec (id r) sid);
      congruence.
  - destruct (Z.eqb_spec (id r) sid'), (Z.eqb_spec (id r) sid);
      congruence.
Qed.

Lemma remove_overwrite_commute (l : list Student) :
  remove_rows sid' (overwrite_rows sid n e p c l)
  = overwrite_rows sid n e p c (remove_rows sid' l).
Proof.
  unfold overwrite_rows, remove_rows.
  induction l as [| a l IH]; cbn; [reflexivity |].
  assert (has_id sid' (if has_id sid a then set_fields n e p c a else a)
          = has_id sid' a) as -> by now destruct (has_id sid a).
  destruct (has_id sid' a); cbn; now rewrite IH.
Qed.

Lemma remove_remove_commute (l : list Student) :
  remove_rows sid' (remove_rows sid l) = remove_rows sid (remove_rows sid' l).
Proof.
  unfold remove_rows; induction l as [| a l IH]; cbn; [reflexivity |].
  destruct (has_id sid a) eqn:E, (has_id sid' a) eqn:E'; cbn;
    rewrite ?E, ?E'; cbn; now rewrite IH.
Qed.

End Composition.



(** X2.  An id outside the INTEGER range makes [get_student_by_id],
    [update_student] and [delete_student] raise [OverflowError], whatever
    the table holds, and the file is left as it was. *)
Theorem id_out_of_range_raises (t : Table) (sid : Z) (n e p c : string) :
  sid < MIN_ROWID \/ MAX_ROWID < sid ->
  get_student_by_id sid (with_table t) = Raised int_too_large (with_table t) /\
  update_student sid n e p c (with_table t)
  = Raised int_too_large (with_table t) /\
  delete_student sid (with_table t) = Raised int_too_large (with_table t).
Proof.
  intros Hout.
  assert (fits_integer sid = false) as Hfit.
  { unfold fits_integer; apply andb_false_iff.
    destruct Hout; [left | right]; apply Z.leb_gt; assumption. }
  rewrite get_student_by_id_rows, update_student_rows, delete_student_rows.
  now rewrite Hfit.
Qed.

Lemma id_out_of_range_raises_witness :
  get_student_by_id (-9223372036854775809) (with_table sample_table)
  = Raised int_too_large (with_table sample_table) /\
  update_student (-9223372036854775809) "Bob" "b@x.com" "555-0002"
                 "Data Science" (with_table sample_table)
  = Raised int_too_large (with_table sample_table) /\
  delete_student (-9223372036854775809) (with_table sample_table)
  = Raised int_too_large (with_table sample_table).
Proof.
  apply (id_out_of_range_raises sample_table (-9223372036854775809)).
  left; unfold MIN_ROWID; lia.
Defined.

(** X3.  In a table that satisfies the invariant, [insert_student] returns
    exactly when the counter of the table is below the largest rowid; at
    the largest rowid it raises "database or disk is full" and the file is
    left as it was. *)
Theorem insert_student_returns_iff
  (t : Table) (now : datetime) (n e p c : string) :
  wf_table t ->
  (seq t < MAX_ROWID <->
   exists db', insert_student now n e p c (with_table t) = Returned tt db') /\
  (seq t = MAX_ROWID <->
   insert_student now n e p c (with_table t)
   = Raised database_full (with_table t)).
Proof.
  intros Hwf.
  assert (seq t <= MAX_ROWID) as Hle by (destruct Hwf as (_ & _ & ?); lia).
  rewrite insert_student_rows, new_rowid_wf by exact Hwf.
  destruct (Z.eqb_spec (seq t) MAX_ROWID) as [E | E]; split; split.
  - lia.
  - intros (db' & H); discriminate.
  - reflexivity.
  - intros _; exact E.
  - intros _; eexists; reflexivity.
  - intros _; lia.
  - intros H; contradiction.
  - discriminate.
Qed.

Lemma insert_student_returns_iff_witness :
  wf_table (mk_table [alice] MAX_ROWID) /\
  insert_student sample_now "Bob" "b@x.com" "555-0002" "Data Science"
                 (with_table (mk_table [alice] MAX_ROWID))
  = Raised database_full (with_table (mk_table [alice] MAX_ROWID)).
Proof.
  assert (wf_table (mk_table [alice] MAX_ROWID)) as Hwf by solve_wf.
  split; [exact Hwf |].
  apply (proj2 (insert_student_returns_iff
                  (mk_table [alice] MAX_ROWID) sample_now
                  "Bob" "b@x.com" "555-0002" "Data Science" Hwf)).
  reflexivity.
Defined.

(** X4.  In a table that satisfies the invariant, [get_student_by_id]
    returns a record exactly when it is the record of the table with that
    id, returns [None] exactly when the id is an INTEGER that no record
    has, and raises exactly when the id is no INTEGER. *)
Theorem get_student_by_id_characterised (t : Table) (sid : Z) :
  wf_table t ->
  (forall r,
      get_student_by_id sid (with_table t) = Returned (Some r) (with_table t)
      <-> In r (rows t) /\ id r = sid) /\
  (get_student_by_id sid (with_table t) = Returned None (with_table t)
   <-> fits_integer sid = true /\ ~ In sid (ids (rows t))) /\
  (get_student_by_id sid (with_table t) = Raised int_too_large (with_table t)
   <-> fits_integer sid = false).
Proof.
  intros Hwf; split; [| split].
  - intros r; split.
    + intros H; apply get_student_by_id_Some in H; tauto.
    + intros (Hin & <-); now apply get_student_by_id_present.
  - split.
    + intros H; split.
      * rewrite get_student_by_id_rows in H.
        destruct (fits_integer sid); [reflexivity | discriminate].
      * intros Hin; unfold ids in Hin; apply in_map_iff in Hin.
        destruct Hin as (r & <- & Hr).
        rewrite (get_student_by_id_present t Hwf r Hr) in H; discriminate.
    + intros (Hfit & Habs).
      rewrite get_student_by_id_rows, Hfit, select_absent by exact Habs.
      reflexivity.
  - rewrite get_student_by_id_rows.
    destruct (fits_integer sid); split; try discriminate; reflexivity.
Qed.

Lemma get_student_by_id_characterised_witness :
  wf_table sample_table /\
  (get_student_by_id 3 (with_table sample_table)
   = Returned (Some carol) (with_table sample_table)
   <-> In carol (rows sample_table) /\ id carol = 3).
Proof.
  assert (wf_table sample_table) as Hwf by solve_wf.
  split; [exact Hwf |].
  apply (proj1 (get_student_by_id_characterised sample_table 3 Hwf) carol).
Defined.

(** X5.  After [insert_student] the new record is read under the id it
    was given, the counter plus one, and every older record is read under
    its id as before. *)
Theorem insert_then_get
  (t : Table) (now : datetime) (n e p c : string) :
  wf_table t -> seq t < MAX_ROWID ->
  let db' := db_after (insert_student now n e p c) (with_table t) in
  get_student_by_id (seq t + 1) db'
  = Returned (Some (mk_student (seq t + 1) n e p c
                               (strftime timestamp_format now))) db' /\
  (forall r, In r (rows t) ->
             get_student_by_id (id r) db' = Returned (Some r) db').
Proof.
  intros Hwf Hlt; cbv zeta; unfold db_after.
  rewrite insert_student_appends by assumption.
  set (r0 := mk_student (seq t + 1) n e p c (strftime timestamp_format now)).
  set (t' := mk_table (rows t ++ [r0]) (seq t + 1)).
  assert (wf_table t') as Hwf' by apply (wf_insert t Hwf r0 Hlt eq_refl).
  split.
  - apply (get_student_by_id_present t' Hwf' r0).
    apply in_or_app; right; now left.
  - intros r Hr; apply (get_student_by_id_present t' Hwf' r).
    apply in_or_app; now left.
Qed.

Lemma insert_then_get_witness :
  let db' := db_after (insert_student sample_now "Bob" "b@x.com" "555-0002"
                                      "Data Science")
                      (with_table sample_table) in
  get_student_by_id (seq sample_table + 1) db'
  = Returned (Some (mk_student (seq sample_table + 1) "Bob" "b@x.com"
                               "555-0002" "Data Science"
                               (strftime timestamp_format sample_now))) db' /\
  (forall r, In r (rows sample_table) ->
             get_student_by_id (id r) db' = Returned (Some r) db').
Proof.
  apply (insert_then_get sample_table sample_now).
  - solve_wf.
  - unfold MAX_ROWID; cbn; lia.
Defined.

(** X6.  Of two updates under the same id the later one wins: the file is
    as if only the later one had been made.  So an update repeated with
    the same values changes nothing more. *)
Theorem update_last_write_wins
  (db : Database) (sid : Z) (n e p c n' e' p' c' : string) :
  db_after (update_student sid n' e' p' c')
           (db_after (update_student sid n e p c) db)
  = db_after (update_student sid n' e' p' c') db.
Proof.
  rewrite !db_after_update.
  destruct (fits_integer sid); [| reflexivity].
  rewrite on_rows_on_rows; apply on_rows_ext, overwrite_twice.
Qed.

(** X7.  A delete repeated changes nothing more; an update under an id
    that was just deleted changes nothing; and a delete after an update
    under the same id leaves the file as the delete alone would. *)
Theorem delete_absorbs (db : Database) (sid : Z) (n e p c : string) :
  db_after (delete_student sid) (db_after (delete_student sid) db)
  = db_after (delete_student sid) db /\
  db_after (update_student sid n e p c) (db_after (delete_student sid) db)
  = db_after (delete_student sid) db /\
  db_after (delete_student sid) (db_after (update_student sid n e p c) db)
  = db_after (delete_student sid) db.
Proof.
  rewrite !db_after_update, !db_after_delete.
  destruct (fits_integer sid); [| repeat split].
  rewrite !on_rows_on_rows.
  split; [| split]; apply on_rows_ext; intros l.
  - apply remove_twice.
  - apply overwrite_removed.
  - apply remove_overwritten.
Qed.

(** X8.  Updates under two different ids can be made in either order, and
    so can an update and a delete, and two deletes, under any ids: the
    file is the same afterwards. *)
Theorem calls_commute
  (db : Database) (sid sid' : Z) (n e p c n' e' p' c' : string) :
  (sid <> sid' ->
   db_after (update_student sid' n' e' p' c')
            (db_after (update_student sid n e p c) db)
   = db_after (update_student sid n e p c)
              (db_after (update_student sid' n' e' p' c') db)) /\
  db_after (delete_student sid') (db_after (update_student sid n e p c) db)
  = db_after (update_student sid n e p c) (db_after (delete_student sid') db) /\
  db_after (delete_student sid') (db_after (delete_student sid) db)
  = db_after (delete_student sid) (db_after (delete_student sid') db).
Proof.
  rewrite !db_after_update, !db_after_delete.
  destruct (fits_integer sid), (fits_integer sid');
    rewrite ?db_after_update, ?db_after_delete, ?on_rows_on_rows;
    repeat split; try reflexivity.
  - intros Hne; apply on_rows_ext; intros l.
    now apply overwrite_overwrite_commute.
  - apply on_rows_ext; intros l; apply remove_overwrite_commute.
  - apply on_rows_ext; intros l; apply remove_remove_commute.
Qed.

Lemma calls_commute_witness :
  1 <> 3 /\
  db_after (update_student 3 "Caroline" "caro@x.org" "555-0103"
                           "Machine Learning")
           (db_after (update_student 1 "Alice B" "a@x.com" "555-0001"
                                     "Data Science")
                     (with_table sample_table))
  = db_after (update_student 1 "Alice B" "a@x.com" "555-0001" "Data Science")
             (db_after (update_student 3 "Caroline" "caro@x.org" "555-0103"
                                       "Machine Learning")
                       (with_table sample_table)).
Proof.
  split; [lia |].
  apply (proj1 (calls_commute (with_table sample_table) 1 3
                  "Alice B" "a@x.com" "555-0001" "Data Science"
                  "Caroline" "caro@x.org" "555-0103" "Machine Learning")).
  lia.
Defined.

(** X9.  Deleting the record that [insert_student] has just created gives
    back the rows the table had, in their order; the counter stays at the
    id that was handed out. *)
Theorem create_then_delete
  (t : Table) (now : datetime) (n e p c : string) :
  wf_table t -> seq t < MAX_ROWID ->
  db_after (delete_student (seq t + 1))
           (db_after (insert_student now n e p c) (with_table t))
  = with_table (mk_table (rows t) (seq t + 1)).
Proof.
  intros Hwf Hlt.
  unfold db_after at 2; rewrite insert_student_appends by assumption.
  rewrite db_after_delete.
  assert (fits_integer (seq t + 1) = true) as ->.
  { destruct Hwf as (_ & _ & Hs).
    unfold fits_integer, MIN_ROWID, MAX_ROWID in *.
    apply andb_true_intro; split; apply Z.leb_le; lia. }
  unfold on_rows, remove_rows; cbn [students with_table rows seq].
  rewrite filter_app; cbn [filter].
  unfold has_id at 2; cbn [id]; rewrite Z.eqb_refl; cbn [negb].
  rewrite app_nil_r, remove_absent; [reflexivity |].
  intros Hin; apply (wf_id_range t Hwf) in Hin; lia.
Qed.

Lemma create_then_delete_witness :
  db_after (delete_student (seq sample_table + 1))
           (db_after (insert_student sample_now "Bob" "b@x.com" "555-0002"
                                     "Data Science")
                     (with_table sample_table))
  = with_table (mk_table (rows sample_table) (seq sample_table + 1)).
Proof.
  apply (create_then_delete sample_table sample_now).
  - solve_wf.
  - unfold MAX_ROWID; cbn; lia.
Defined.

(** X10.  A call that raises leaves the file exactly as it was, and the
    two reading functions leave it as it was whether they return or
    raise. *)
Theorem raising_call_changes_nothing :
  (forall (r : Request) (db : Database) (e : Exception) (db' : Database),
      perform r db = Raised e db' -> db' = db) /\
  (forall db, db_after view_all_students db = db) /\
  (forall db sid, db_after (get_student_by_id sid) db = db).
Proof.
  split; [| split].
  - intros r [[t |]] e db' H.
    + change (mk_database (Some t)) with (with_table t) in *.
      destruct r as [| now n0 e0 p0 c0 | | sid | sid n0 e0 p0 c0 | sid];
        cbn [perform] in H.
      * discriminate.
      * rewrite insert_student_rows in H.
        destruct (new_rowid t); [discriminate | now injection H].
      * discriminate.
      * unfold bind in H; rewrite get_student_by_id_rows in H.
        destruct (fits_integer sid); [discriminate | now injection H].
      * rewrite update_student_rows in H.
        destruct (fits_integer sid); [discriminate | now injection H].
      * rewrite delete_student_rows in H.
        destruct (fits_integer sid); [discriminate | now injection H].
    + destruct r; cbn in H; try discriminate; now injection H.
  - intros [[t |]]; reflexivity.
  - intros [[t |]] sid; [| reflexivity].
    change (mk_database (Some t)) with (with_table t).
    unfold db_after; rewrite get_student_by_id_rows.
    now destruct (fits_integer sid).
Qed.

Lemma raising_call_changes_nothing_witness :
  perform (Delete (MAX_ROWID + 1)) (with_table sample_table)
  = Raised int_too_large (with_table sample_table) /\
  with_table sample_table = with_table sample_table.
Proof.
  split; [reflexivity |].
  apply (proj1 raising_call_changes_nothing
           (Delete (MAX_ROWID + 1)) (with_table sample_table)
           int_too_large (with_table sample_table)).
  reflexivity.
Defined.

(* ================================================================== *)
(** ** Properties of the pages *)
(* ================================================================== *)

Section Fields.

Variable P : string -> string -> string -> string -> Prop.

Lemma perform_fields (q : Request) (db : Database) :
  Forall (record_fields P) (listing db) ->
  request_fields P q ->
  Forall (record_fields P) (listing (db_after (perform q) db)).
Proof.
  intros Hdb Hq.
  destruct q as [| now n e p c | | sid | sid n e p c | sid]; cbn [perform].
  - destruct db as [[t |]]; [exact Hdb | constructor].
  - destruct db as [[t |]]; [| exact Hdb].
    change (mk_database (Some t)) with (with_table t) in *.
    unfold db_after; rewrite insert_student_rows.
    destruct (new_rowid t) as [v |]; [| exact Hdb].
    cbn [listing with_table students rows].
    apply Forall_app; split; [exact Hdb |].
    constructor; [exact Hq | constructor].
  - destruct db as [[t |]]; exact Hdb.
  - destruct db as [[t |]]; [| exact Hdb].
    change (mk_database (Some t)) with (with_table t) in *.
    unfold db_after, bind; rewrite get_student_by_id_rows.
    destruct (fits_integer sid); exact Hdb.
  - rewrite db_after_update.
    destruct (fits_integer sid); [| exact Hdb].
    destruct db as [[t |]]; [| exact Hdb].
    cbn [on_rows listing with_table students rows] in *.
    unfold overwrite_rows; rewrite Forall_forall in *.
    intros x Hx; apply in_map_iff in Hx; destruct Hx as (r & <- & Hr).
    destruct (has_id sid r); [exact Hq | now apply Hdb].
  - rewrite db_after_delete.
    destruct (fits_integer sid); [| exact Hdb].
    destruct db as [[t |]]; [| exact Hdb].
    cbn [on_rows listing with_table students rows] in *.
    unfold remove_rows; rewrite Forall_forall in *.
    intros x Hx; apply filter_In in Hx; now apply Hdb.
Qed.

Lemma run_fields (rs : list Request) (db : Database) :
  Forall (record_fields P) (listing db) ->
  Forall (request_fields P) rs ->
  Forall (record_fields P) (listing (run rs db)).
Proof.
  revert db; induction rs as [| q rs IH]; cbn [run]; intros db Hdb Hrs;
    [exact Hdb |].
  inversion Hrs as [| ? ? Hq Hrs']; subst.
  apply IH; [now apply perform_fields | exact Hrs'].
Qed.

End Fields.

Section Lookup.

Lemma truthy_iff (s : string) : truthy s = true <-> s <> "".
Proof. destruct s; cbn; split; congruence. Qed.

Lemma index_In (l : list string) (x : string) :
  In x l -> exists k, index l x = inr k /\ nth_error l k = Some x.
Proof.
  induction l as [| y l IH]; cbn [index In]; intros H; [contradiction |].
  destruct (String.eqb_spec y x) as [E | E].
  - exists O; split; [reflexivity | now subst].
  - destruct H as [H | H]; [contradiction |].
    destruct (IH H) as (k & -> & Hk); exists (S k); now split.
Qed.

Lemma index_not_In (l : list string) (x : string) :
  ~ In x l -> index l x = inl ValueError.
Proof.
  induction l as [| y l IH]; cbn [index In]; intros H; [reflexivity |].
  destruct (String.eqb_spec y x) as [E | E]; [tauto |].
  rewrite IH by tauto; reflexivity.
Qed.

Lemma nunique_le (l : list string) : (nunique l <= List.length l)%nat.
Proof.
  unfold nunique; apply NoDup_incl_length; [apply NoDup_nodup |].
  intros x Hx; now apply nodup_In in Hx.
Qed.

Lemma nunique_pos (l : list string) : l <> [] -> (1 <= nunique l)%nat.
Proof.
  destruct l as [| x l]; [congruence | intros _].
  unfold nunique.
  assert (In x (nodup string_dec (x :: l))) as H
      by (apply nodup_In; now left).
  destruct (nodup string_dec (x :: l)); [contradiction | cbn; lia].
Qed.

Lemma nunique_bound (l options : list string) :
  Forall (fun x => In x options) l ->
  (nunique l <= List.length options)%nat.
Proof.
  intros H; unfold nunique; apply NoDup_incl_length; [apply NoDup_nodup |].
  rewrite Forall_forall in H.
  intros x Hx; apply nodup_In in Hx; now apply H.
Qed.

Lemma selected_student_first (df : list Student) (s : string) :
  In s (student_names df) ->
  exists before r after,
    df = before ++ r :: after /\
    selected_student df s = inr r /\
    name r = s /\
    Forall (fun x => name x <> s) before.
Proof.
  unfold selected_student, student_names.
  induction df as [| a df IH]; cbn [map In filter]; intros H;
    [contradiction |].
  destruct (String.eqb_spec (name a) s) as [E | E].
  - exists [], a, df; repeat split; [exact E | constructor].
  - destruct H as [H | H]; [contradiction |].
    destruct (IH H) as (before & r & after & -> & Hsel & Hr & Hb).
    exists (a :: before), r, after; repeat split; try assumption.
    now constructor.
Qed.

Lemma selected_student_named (df : list Student) (s : string) (r : Student) :
  selected_student df s = inr r -> In r df /\ name r = s.
Proof.
  unfold selected_student.
  destruct (filter (fun x => String.eqb (name x) s) df) as [| x l] eqn:E;
    [discriminate |].
  intros H; injection H as <-.
  assert (In x (filter (fun x => String.eqb (name x) s) df)) as Hx
      by (rewrite E; now left).
  apply filter_In in Hx; destruct Hx as (Hin & Hn).
  split; [exact Hin | now apply String.eqb_eq].
Qed.

End Lookup.

Lemma selected_student_in_prefix
  (before : list Student) (r1 : Student) (rest : list Student) :
  exists r, selected_student (before ++ r1 :: rest) (name r1) = inr r /\
            In r (before ++ [r1]).
Proof.
  unfold selected_student.
  induction before as [| a before IH]; cbn [app filter].
  - rewrite String.eqb_refl; exists r1; split; [reflexivity | now left].
  - destruct (String.eqb (name a) (name r1)).
    + exists a; split; [reflexivity | now left].
    + destruct IH as (r & Hsel & Hin); exists r; split; [exact Hsel |].
      now right.
Qed.

(** X11.  The four texts of a record are always texts that a call wrote:
    whatever property the records of the table have and every create and
    update of a sequence of calls writes, the records of the table have
    after the sequence. *)
Theorem fields_come_from_calls
  (P : string -> string -> string -> string -> Prop)
  (rs : list Request) (db : Database) :
  Forall (record_fields P) (listing db) ->
  Forall (request_fields P) rs ->
  Forall (record_fields P) (listing (run rs db)).
Proof. apply run_fields. Qed.

Lemma fields_come_from_calls_witness :
  Forall (record_fields (fun n _ _ _ => n <> ""))
         (listing (run sample_history (with_table sample_table))).
Proof.
  apply (fields_come_from_calls (fun n _ _ _ => n <> "")).
  - repeat constructor; discriminate.
  - repeat constructor; discriminate.
Defined.

(** X12.  The Create page calls [insert_student] exactly when the form was
    submitted with four texts that are not empty.  Without a submission
    it does nothing; with an empty text it shows the error and leaves the
    file as it was; with four texts it adds the record and shows the
    success, or lets the exception of [insert_student] through to the
    caller without any message. *)
Theorem create_page_validates
  (now : datetime) (name email phone course : string) (db : Database) :
  create_page now name email phone course false db = Returned [] db /\
  (name = "" \/ email = "" \/ phone = "" \/ course = "" ->
   create_page now name email phone course true db
   = Returned [st_error "❌ Please fill in all fields."] db) /\
  (name <> "" -> email <> "" -> phone <> "" -> course <> "" ->
   create_page now name email phone course true db
   = match insert_student now name email phone course db with
     | Returned _ db' =>
         Returned [st_success "✅ Student added successfully!"; st_balloons]
                  db'
     | Raised e db' => Raised e db'
     end) /\
  (name <> "" -> email <> "" -> phone <> "" -> course <> "" ->
   forall t, db = with_table t -> wf_table t -> seq t < MAX_ROWID ->
   create_page now name email phone course true db
   = Returned [st_success "✅ Student added successfully!"; st_balloons]
       (with_table
          (mk_table
             (rows t ++ [mk_student (seq t + 1) name email phone course
                           (strftime timestamp_format now)])
             (seq t + 1)))).
Proof.
  split; [reflexivity |].
  split; [| split].
  - intros H; unfold create_page.
    assert (truthy name && truthy email && truthy phone && truthy course
            = false) as ->; [| reflexivity].
    destruct H as [-> | [-> | [-> | ->]]]; cbn;
      rewrite ?andb_false_r; reflexivity.
  - intros Hn He Hp Hc; unfold create_page.
    apply truthy_iff in Hn, He, Hp, Hc; rewrite Hn, He, Hp, Hc; cbn [andb].
    unfold bind, ret.
    now destruct (insert_student now name email phone course db).
  - intros Hn He Hp Hc t -> Hwf Hlt; unfold create_page.
    apply truthy_iff in Hn, He, Hp, Hc; rewrite Hn, He, Hp, Hc; cbn [andb].
    unfold bind, ret.
    now rewrite insert_student_appends by assumption.
Qed.

Lemma create_page_validates_witness :
  create_page sample_now "Bob" "" "555-0002" "Data Science" true
              (with_table sample_table)
  = Returned [st_error "❌ Please fill in all fields."]
             (with_table sample_table) /\
  create_page sample_now " " "b@x.com" "555-0002" "Data Science" true
              (with_table sample_table)
  = Returned [st_success "✅ Student added successfully!"; st_balloons]
      (with_table
         (mk_table
            (rows sample_table
             ++ [mk_student (seq sample_table + 1) " " "b@x.com" "555-0002"
                            "Data Science"
                            (strftime timestamp_format sample_now)])
            (seq sample_table + 1))).
Proof.
  split.
  - apply (create_page_validates sample_now "Bob" "" "555-0002"
             "Data Science" (with_table sample_table)).
    right; left; reflexivity.
  - destruct (create_page_validates sample_now " " "b@x.com" "555-0002"
                "Data Science" (with_table sample_table)) as (_ & _ & _ & H).
    apply (H ltac:(discriminate) ltac:(discriminate) ltac:(discriminate)
             ltac:(discriminate) sample_table eq_refl).
    + solve_wf.
    + unfold MAX_ROWID; cbn; lia.
Defined.

(** X13.  The View page leaves the file as it is.  On a table without
    rows it shows the warning and no metric; otherwise it shows the rows
    and three metrics, of which "Total Students" and "Records in Database"
    are both the number of rows and "Unique Courses" lies between one and
    that number, and is at most six where every course is one of the
    options of the forms. *)
Theorem view_page_metrics (t : Table) :
  (rows t = [] ->
   view_page (with_table t)
   = Returned
       [st_warning
          "⚠️ No students found in the database. Add some students first!"]
       (with_table t)) /\
  (rows t <> [] ->
   exists u : nat,
     view_page (with_table t)
     = Returned [st_dataframe (rows t);
                 st_metric "Total Students" (List.length (rows t));
                 st_metric "Unique Courses" u;
                 st_metric "Records in Database" (List.length (rows t))]
                (with_table t) /\
     (1 <= u <= List.length (rows t))%nat /\
     (Forall (fun r => In (course r) course_options) (rows t) ->
      (u <= 6)%nat)).
Proof.
  split.
  - intros E; unfold view_page, bind; rewrite view_all_students_rows, E.
    reflexivity.
  - intros Hne; exists (nunique (map course (rows t))).
    split; [| split; [split |]].
    + unfold view_page, bind; rewrite view_all_students_rows.
      destruct (rows t); [congruence | reflexivity].
    + apply nunique_pos; destruct (rows t); [congruence | discriminate].
    + rewrite <- (length_map course (rows t)); apply nunique_le.
    + intros H.
      change 6%nat with (List.length course_options).
      apply nunique_bound; rewrite Forall_forall in *.
      intros x Hx; apply in_map_iff in Hx; destruct Hx as (r & <- & Hr).
      now apply H.
Qed.

Lemma view_page_metrics_witness :
  rows sample_table <> [] /\
  exists u : nat,
    view_page (with_table sample_table)
    = Returned [st_dataframe (rows sample_table);
                st_metric "Total Students" (List.length (rows sample_table));
                st_metric "Unique Courses" u;
                st_metric "Records in Database"
                          (List.length (rows sample_table))]
               (with_table sample_table) /\
    (1 <= u <= List.length (rows sample_table))%nat /\
    (Forall (fun r => In (course r) course_options) (rows sample_table) ->
     (u <= 6)%nat).
Proof.
  split; [discriminate |].
  apply (proj2 (view_page_metrics sample_table)); discriminate.
Defined.

(** X14.  On the Update and Delete pages the record is found by its name:
    for a name of the select box the lookup does not raise and gives the
    first record of the listing with that name ([IndexError] is for names
    that no record has).  So a record that shares its name with an
    earlier record can never be selected, while with names that are all
    different every record is selected by its name. *)
Theorem selected_student_is_first_by_name (df : list Student) :
  (forall s,
      In s (student_names df) ->
      exists before r after,
        df = before ++ r :: after /\
        selected_student df s = inr r /\
        name r = s /\
        Forall (fun x => name x <> s) before) /\
  (forall s,
      selected_student df s = inl IndexError <-> ~ In s (student_names df)) /\
  (forall before r1 mid r2 after s,
      df = before ++ r1 :: mid ++ r2 :: after ->
      NoDup (ids df) -> name r1 = name r2 ->
      selected_student df s <> inr r2) /\
  (forall r,
      NoDup (student_names df) -> In r df ->
      selected_student df (name r) = inr r).
Proof.
  split; [| split; [| split]].
  - intros s; apply selected_student_first.
  - intros s; split.
    + intros H Hin.
      destruct (selected_student_first df s Hin) as (_ & r & _ & _ & Hr & _).
      congruence.
    + intros H; unfold selected_student.
      destruct (filter (fun r => String.eqb (name r) s) df) as [| x l] eqn:E;
        [reflexivity | exfalso; apply H].
      assert (In x (filter (fun r => String.eqb (name r) s) df)) as Hx
          by (rewrite E; now left).
      apply filter_In in Hx; destruct Hx as (Hin & Hn).
      apply String.eqb_eq in Hn; subst s.
      unfold student_names; now apply in_map.
  - intros before r1 mid r2 after s -> Hnd Hname Hsel.
    destruct (selected_student_named _ _ _ Hsel) as (_ & Hs).
    destruct (selected_student_in_prefix before r1 (mid ++ r2 :: after))
      as (r & Hr & Hin).
    rewrite Hname, Hs, Hsel in Hr; injection Hr as <-.
    change (before ++ r1 :: mid ++ r2 :: after)
      with (before ++ (r1 :: mid) ++ r2 :: after) in Hnd.
    rewrite app_assoc in Hnd; unfold ids in Hnd.
    rewrite map_app in Hnd; cbn [map] in Hnd.
    apply NoDup_remove_2 in Hnd; apply Hnd.
    apply in_or_app; left; apply in_map.
    apply in_app_or in Hin; apply in_or_app.
    destruct Hin as [Hin | [<- | []]]; [now left | right; now left].
  - intros r Hnd Hin.
    assert (In (name r) (student_names df)) as Hs
        by (unfold student_names; now apply in_map).
    destruct (selected_student_first df (name r) Hs)
      as (before & x & after & -> & Hsel & Hx & Hb).
    rewrite Hsel; f_equal.
    apply in_app_or in Hin; destruct Hin as [Hin | [Hin | Hin]].
    + rewrite Forall_forall in Hb; now apply Hb in Hin.
    + exact Hin.
    + exfalso; unfold student_names in Hnd.
      rewrite map_app in Hnd; cbn [map] in Hnd.
      apply NoDup_remove_2 in Hnd; apply Hnd.
      apply in_or_app; right; rewrite Hx; now apply in_map.
Qed.

Lemma selected_student_is_first_by_name_witness :
  NoDup (ids [alice; carol; alice_again]) /\
  name alice = name alice_again /\
  selected_student [alice; carol; alice_again] "Alice" <> inr alice_again.
Proof.
  assert (NoDup (ids [alice; carol; alice_again])) as Hnd.
  { cbn; repeat constructor; cbn; intros H;
      repeat (destruct H as [H | H]; [discriminate |]); exact H. }
  split; [exact Hnd |].
  split; [reflexivity |].
  apply (proj1 (proj2 (proj2 (selected_student_is_first_by_name
                                [alice; carol; alice_again])))
           [] alice [carol] alice_again [] "Alice");
    [reflexivity | exact Hnd | reflexivity].
Defined.

(** X15.  The Update form looks the course of the selected record up in
    its options: the lookup gives the first position of the course where
    it is an option and raises [ValueError] where it is none.  In a
    database filled from a new file by calls that write what the forms
    let through, the lookup raises for no record. *)
Theorem course_index_of_form_courses :
  (forall r,
      In (course r) course_options <->
      exists k, course_index r = inr k /\
                nth_error course_options k = Some (course r)) /\
  (forall r,
      ~ In (course r) course_options <-> course_index r = inl ValueError) /\
  (forall rs r,
      Forall (request_fields form_fields) rs ->
      In r (listing (run rs no_table)) ->
      exists k, course_index r = inr k /\ (k < 6)%nat).
Proof.
  split; [| split].
  - intros r; split; [apply index_In |].
    intros (k & _ & Hk); now apply nth_error_In in Hk.
  - intros r; split; [apply index_not_In |].
    intros H Hin; apply index_In in Hin; destruct Hin as (k & Hk & _).
    unfold course_index in H; congruence.
  - intros rs r Hrs Hr.
    assert (Forall (record_fields form_fields) (listing (run rs no_table)))
      as Hall by (apply run_fields; [constructor | exact Hrs]).
    rewrite Forall_forall in Hall; apply Hall in Hr.
    destruct Hr as (_ & _ & _ & _ & Hc).
    apply index_In in Hc; destruct Hc as (k & Hk & Hnth).
    exists k; split; [exact Hk |].
    change 6%nat with (List.length course_options).
    apply nth_error_Some; congruence.
Qed.

Lemma course_index_of_form_courses_witness :
  Forall (request_fields form_fields)
         [Initialize;
          Create sample_now "Dan" "d@x.com" "555-0004" "Database Design"] /\
  forall r,
    In r (listing (run [Initialize;
                        Create sample_now "Dan" "d@x.com" "555-0004"
                               "Database Design"] no_table)) ->
    exists k, course_index r = inr k /\ (k < 6)%nat.
Proof.
  assert (Forall (request_fields form_fields)
            [Initialize;
             Create sample_now "Dan" "d@x.com" "555-0004" "Database Design"])
    as H.
  { repeat constructor; cbn; tauto. }
  split; [exact H |].
  intros r; apply (proj2 (proj2 course_index_of_form_courses)); exact H.
Defined.

(* ================================================================== *)
(** ** The order of enrollment dates *)
(* ================================================================== *)

Section Chronology.

Lemma digit_mod (n : Z) : digit n = digit (n mod 10).
Proof. unfold digit; now rewrite Z.mod_mod. Qed.

Lemma ascii_compare_digit (a b : Z) :
  Ascii.compare (digit a) (digit b) = (a mod 10 ?= b mod 10).
Proof.
  rewrite (digit_mod a), (digit_mod b).
  assert (0 <= a mod 10 < 10) as Ha by (apply Z.mod_pos_bound; lia).
  assert (0 <= b mod 10 < 10) as Hb by (apply Z.mod_pos_bound; lia).
  revert Ha Hb; generalize (a mod 10) (b mod 10); intros x y Hx Hy.
  apply (small_cases x
           (fun x => Ascii.compare (digit x) (digit y) = (x ?= y)) Hx);
    apply (small_cases y
             (fun y => Ascii.compare (digit _) (digit y) = (_ ?= y)) Hy);
    reflexivity.
Qed.

Lemma ascii_compare_refl (c : ascii) : Ascii.compare c c = Eq.
Proof. unfold Ascii.compare; apply N.compare_refl. Qed.

Lemma compare_separator (c : ascii) (s t : string) :
  String.compare (String c "" ++ s) (String c "" ++ t) = String.compare s t.
Proof. cbn [append String.compare]; now rewrite ascii_compare_refl. Qed.

Lemma compare_zero_pad2 (a b : Z) (s t : string) :
  0 <= a <= 99 -> 0 <= b <= 99 ->
  String.compare (zero_pad2 a ++ s) (zero_pad2 b ++ t)
  = match a ?= b with
    | Eq => String.compare s t
    | c => c
    end.
Proof.
  intros Ha Hb; unfold zero_pad2; cbn [append String.compare].
  rewrite !ascii_compare_digit.
  pose proof (Z.div_mod a 10 ltac:(lia)) as Ea.
  pose proof (Z.div_mod b 10 ltac:(lia)) as Eb.
  pose proof (Z.mod_pos_bound a 10 ltac:(lia)) as Ra.
  pose proof (Z.mod_pos_bound b 10 ltac:(lia)) as Rb.
  assert (0 <= a / 10 < 10) as Qa
      by (split; [apply Z.div_pos; lia | apply Z.div_lt_upper_bound; lia]).
  assert (0 <= b / 10 < 10) as Qb
      by (split; [apply Z.div_pos; lia | apply Z.div_lt_upper_bound; lia]).
  rewrite (Z.mod_small (a / 10)), (Z.mod_small (b / 10)) by assumption.
  destruct (Z.compare_spec (a / 10) (b / 10)),
           (Z.compare_spec (a mod 10) (b mod 10)),
           (Z.compare_spec a b); try reflexivity; exfalso; lia.
Qed.

Lemma digit_congruent (x y : Z) : x mod 10 = y mod 10 -> digit x = digit y.
Proof. intros H; now rewrite (digit_mod x), (digit_mod y), H. Qed.

Lemma zero_pad4_split (n : Z) (u : string) :
  0 <= n <= 9999 ->
  (zero_pad4 n ++ u
   = zero_pad2 (n / 100) ++ zero_pad2 (n mod 100) ++ u)%string.
Proof.
  intros Hn; unfold zero_pad4, zero_pad2; cbn [append].
  f_equal; [apply digit_congruent; Z.div_mod_to_equations; lia |].
  f_equal.
  f_equal; [apply digit_congruent; Z.div_mod_to_equations; lia |].
  f_equal; apply digit_congruent; Z.div_mod_to_equations; lia.
Qed.

Lemma compare_zero_pad4 (a b : Z) (s t : string) :
  0 <= a <= 9999 -> 0 <= b <= 9999 ->
  String.compare (zero_pad4 a ++ s) (zero_pad4 b ++ t)
  = match a ?= b with
    | Eq => String.compare s t
    | c => c
    end.
Proof.
  intros Ha Hb.
  rewrite !zero_pad4_split by assumption.
  assert (0 <= a / 100 <= 99 /\ 0 <= a mod 100 <= 99
          /\ 0 <= b / 100 <= 99 /\ 0 <= b mod 100 <= 99)
    as (Qa & Ra & Qb & Rb) by (Z.div_mod_to_equations; lia).
  rewrite !compare_zero_pad2 by assumption.
  pose proof (Z.div_mod a 100 ltac:(lia)) as Ea.
  pose proof (Z.div_mod b 100 ltac:(lia)) as Eb.
  destruct (Z.compare_spec (a / 100) (b / 100)),
           (Z.compare_spec (a mod 100) (b mod 100)),
           (Z.compare_spec a b); try reflexivity; exfalso; lia.
Qed.

End Chronology.

(** X16.  Enrollment dates sort as texts in the order of the instants they
    were taken at: comparing the texts of two clock readings character by
    character gives the order of the two instants to the second.  So two
    readings get the same text exactly when they agree to the second. *)
Theorem enrollment_dates_sort_chronologically (d1 d2 : datetime) :
  clock_reading d1 -> clock_reading d2 ->
  String.compare (strftime timestamp_format d1) (strftime timestamp_format d2)
  = compare_to_the_second d1 d2 /\
  (strftime timestamp_format d1 = strftime timestamp_format d2
   <-> to_the_second d1 = to_the_second d2).
Proof.
  intros H1 H2; split.
  - destruct H1 as (Hy1 & Hm1 & Hd1 & Hh1 & Hn1 & Hs1 & _).
    destruct H2 as (Hy2 & Hm2 & Hd2 & Hh2 & Hn2 & Hs2 & _).
    rewrite !strftime_timestamp.
    change (zero_pad2 (second d1))
      with (zero_pad2 (second d1) ++ "")%string.
    change (zero_pad2 (second d2))
      with (zero_pad2 (second d2) ++ "")%string.
    rewrite compare_zero_pad4 by lia.
    rewrite compare_separator, compare_zero_pad2 by lia.
    rewrite compare_separator, compare_zero_pad2 by lia.
    rewrite compare_separator, compare_zero_pad2 by lia.
    rewrite compare_separator, compare_zero_pad2 by lia.
    rewrite compare_separator, compare_zero_pad2 by lia.
    reflexivity.
  - split.
    + intros E.
      pose proof (strptime_strftime d1 H1) as P1.
      pose proof (strptime_strftime d2 H2) as P2.
      rewrite E in P1; congruence.
    + intros E; unfold to_the_second in E.
      injection E as Ey Em Ed Eh En Es.
      rewrite !strftime_timestamp; congruence.
Qed.

Lemma enrollment_dates_sort_chronologically_witness :
  String.compare
    (strftime timestamp_format sample_now)
    (strftime timestamp_format (mk_datetime 2024 3 10 9 30 0 0))
  = compare_to_the_second sample_now (mk_datetime 2024 3 10 9 30 0 0) /\
  (strftime timestamp_format sample_now
   = strftime timestamp_format (mk_datetime 2024 3 10 9 30 0 0)
   <-> to_the_second sample_now
       = to_the_second (mk_datetime 2024 3 10 9 30 0 0)).
Proof.
  apply (enrollment_dates_sort_chronologically
           sample_now (mk_datetime 2024 3 10 9 30 0 0)).
  - unfold clock_reading; cbn; lia.
  - unfold clock_reading; cbn; lia.
Defined.
